(** * The i386 real-time clock (osfmk/i386/rtclock.c)

    A shallow embedding of the nanotime maintenance code: the calibration
    tuple [pal_rtc_nanotime_info], the routines that initialise, rebase and
    nudge it, the calibrator [rtc_set_timescale], the timer-pop request
    [setPop] and the absolute-time conversions.

    Unsigned C integers are integers of [Z] whose wrap-around is written
    where the C arithmetic can wrap.  The file mutates globals and calls
    into the platform layer, so every routine is a computation over an
    explicit [machine] state that also keeps the trace of the calls made
    to collaborators outside the file. *)

From Stdlib Require Import ZArith List Bool Lia.
Import ListNotations.
Local Open Scope Z_scope.

(** ** Fixed-width arithmetic *)

Definition u64 (x : Z) : Z := x mod 2 ^ 64.
Definition u32 (x : Z) : Z := x mod 2 ^ 32.

(** Modelled from the spec: [NSEC_PER_SEC] is declared in a header that is
    not part of the translated file; the spec writes the calibrator's
    dividend as [1e9 << 32]. *)
Definition NSEC_PER_SEC : Z := 1000000000.

Definition UI_CPUFREQ_ROUNDING_FACTOR : Z := 10000000.

(** ** Data *)

(** The fields of [pal_rtc_nanotime_t] the file reads and writes. *)
Record pal_rtc_nanotime_t : Type := mk_nanotime {
  tsc_base : Z;   (* uint64_t: timestamp at the last rebase *)
  ns_base  : Z;   (* uint64_t: nanoseconds at the last rebase *)
  scale    : Z;   (* uint32_t: tsc -> nanosecond multiplier *)
  shift    : Z    (* uint32_t: nonzero only on slow machines *)
}.

(** The fields of [gPEClockFrequencyInfo] written by [rtc_export_speed]
    and [rtclock_init]. *)
Record clock_frequency_info_t : Type := mk_freq_info {
  cpu_clock_rate_hz    : Z;
  cpu_frequency_hz     : Z;
  cpu_frequency_min_hz : Z;
  cpu_frequency_max_hz : Z
}.

(** The trapped register state handed to [rtclock_intr]. *)
Inductive x86_saved_state_t : Type :=
| saved_state64 (cs rip : Z)
| saved_state32 (cs eip : Z).

(** Calls that leave the file, in the order they are made. *)
Inductive event : Type :=
| commpage_set_nanotime (tsc_base ns_base scale shift : Z)
| commpage_set_timestamp (abstime sec frac scale tick_per_sec : Z)
| rtc_config
| rtc_set_request (time now : Z)
| timer_resync_deadlines
| timer_intr (user_mode : bool) (rip : Z)
| rtc_timer_init
| clock_timebase_init
| ml_init_lock_timeout
| ml_init_delay_spin_threshold (threshold : Z)
| printf_slow_tsc (shift : Z)
| kprintf_frequency (cycles cyc_per_sec : Z)
| cpu_pause.

(** The [assert]s of the file. *)
Inductive assertion : Type :=
| assert_interrupts_disabled      (* assert(!ml_get_interrupts_enabled()) *)
| assert_tsc_base_delta_small     (* assert(tsc_base_delta < 100ULL) *)
| assert_tscFreq                  (* assert(tscFreq) *)
| assert_preemption_level.        (* assert(get_preemption_level() > 0) *)

Record machine : Type := mk_machine {
  (* globals defined in the file *)
  pal_rtc_nanotime_info  : pal_rtc_nanotime_t;
  tsc_rebase_abs_time    : Z;
  gAcpiLastSleepTscBase  : Z;
  gAcpiLastSleepNanoBase : Z;
  gAcpiLastWakeTscBase   : Z;
  gAcpiLastWakeNanoBase  : Z;
  (* x86_lcpu() of the running processor *)
  rtcDeadline            : Z;
  rtcPop                 : Z;
  (* platform expert data *)
  gPEClockFrequencyInfo  : clock_frequency_info_t;
  (* read-only surroundings *)
  tscFreq                : Z;
  tsc_at_boot            : Z;
  interrupts_enabled     : bool;
  preemption_level       : Z;
  on_master_cpu          : bool;   (* cpu_number() == master_cpu *)
  (* number of time-stamp counter reads made so far *)
  tsc_reads              : nat;
  (* calls made to the collaborators, oldest first *)
  trace                  : list event
}.

Definition set_nanotime_info (t : pal_rtc_nanotime_t) (m : machine) : machine :=
  mk_machine t (tsc_rebase_abs_time m)
    (gAcpiLastSleepTscBase m) (gAcpiLastSleepNanoBase m)
    (gAcpiLastWakeTscBase m) (gAcpiLastWakeNanoBase m)
    (rtcDeadline m) (rtcPop m) (gPEClockFrequencyInfo m)
    (tscFreq m) (tsc_at_boot m) (interrupts_enabled m) (preemption_level m)
    (on_master_cpu m) (tsc_reads m) (trace m).

Definition set_tsc_rebase_abs_time (v : Z) (m : machine) : machine :=
  mk_machine (pal_rtc_nanotime_info m) v
    (gAcpiLastSleepTscBase m) (gAcpiLastSleepNanoBase m)
    (gAcpiLastWakeTscBase m) (gAcpiLastWakeNanoBase m)
    (rtcDeadline m) (rtcPop m) (gPEClockFrequencyInfo m)
    (tscFreq m) (tsc_at_boot m) (interrupts_enabled m) (preemption_level m)
    (on_master_cpu m) (tsc_reads m) (trace m).

Definition set_last_sleep (tsc ns : Z) (m : machine) : machine :=
  mk_machine (pal_rtc_nanotime_info m) (tsc_rebase_abs_time m)
    tsc ns
    (gAcpiLastWakeTscBase m) (gAcpiLastWakeNanoBase m)
    (rtcDeadline m) (rtcPop m) (gPEClockFrequencyInfo m)
    (tscFreq m) (tsc_at_boot m) (interrupts_enabled m) (preemption_level m)
    (on_master_cpu m) (tsc_reads m) (trace m).

Definition set_last_wake (tsc ns : Z) (m : machine) : machine :=
  mk_machine (pal_rtc_nanotime_info m) (tsc_rebase_abs_time m)
    (gAcpiLastSleepTscBase m) (gAcpiLastSleepNanoBase m)
    tsc ns
    (rtcDeadline m) (rtcPop m) (gPEClockFrequencyInfo m)
    (tscFreq m) (tsc_at_boot m) (interrupts_enabled m) (preemption_level m)
    (on_master_cpu m) (tsc_reads m) (trace m).

Definition set_rtcDeadline (v : Z) (m : machine) : machine :=
  mk_machine (pal_rtc_nanotime_info m) (tsc_rebase_abs_time m)
    (gAcpiLastSleepTscBase m) (gAcpiLastSleepNanoBase m)
    (gAcpiLastWakeTscBase m) (gAcpiLastWakeNanoBase m)
    v (rtcPop m) (gPEClockFrequencyInfo m)
    (tscFreq m) (tsc_at_boot m) (interrupts_enabled m) (preemption_level m)
    (on_master_cpu m) (tsc_reads m) (trace m).

Definition set_rtcPop (v : Z) (m : machine) : machine :=
  mk_machine (pal_rtc_nanotime_info m) (tsc_rebase_abs_time m)
    (gAcpiLastSleepTscBase m) (gAcpiLastSleepNanoBase m)
    (gAcpiLastWakeTscBase m) (gAcpiLastWakeNanoBase m)
    (rtcDeadline m) v (gPEClockFrequencyInfo m)
    (tscFreq m) (tsc_at_boot m) (interrupts_enabled m) (preemption_level m)
    (on_master_cpu m) (tsc_reads m) (trace m).

Definition set_frequency_info (i : clock_frequency_info_t) (m : machine) : machine :=
  mk_machine (pal_rtc_nanotime_info m) (tsc_rebase_abs_time m)
    (gAcpiLastSleepTscBase m) (gAcpiLastSleepNanoBase m)
    (gAcpiLastWakeTscBase m) (gAcpiLastWakeNanoBase m)
    (rtcDeadline m) (rtcPop m) i
    (tscFreq m) (tsc_at_boot m) (interrupts_enabled m) (preemption_level m)
    (on_master_cpu m) (tsc_reads m) (trace m).

Definition set_tsc_reads (n : nat) (m : machine) : machine :=
  mk_machine (pal_rtc_nanotime_info m) (tsc_rebase_abs_time m)
    (gAcpiLastSleepTscBase m) (gAcpiLastSleepNanoBase m)
    (gAcpiLastWakeTscBase m) (gAcpiLastWakeNanoBase m)
    (rtcDeadline m) (rtcPop m) (gPEClockFrequencyInfo m)
    (tscFreq m) (tsc_at_boot m) (interrupts_enabled m) (preemption_level m)
    (on_master_cpu m) n (trace m).

Definition set_trace (t : list event) (m : machine) : machine :=
  mk_machine (pal_rtc_nanotime_info m) (tsc_rebase_abs_time m)
    (gAcpiLastSleepTscBase m) (gAcpiLastSleepNanoBase m)
    (gAcpiLastWakeTscBase m) (gAcpiLastWakeNanoBase m)
    (rtcDeadline m) (rtcPop m) (gPEClockFrequencyInfo m)
    (tscFreq m) (tsc_at_boot m) (interrupts_enabled m) (preemption_level m)
    (on_master_cpu m) (tsc_reads m) t.

(** The four sleep/wake snapshots of a machine, as one value. *)
Definition acpi_snapshots (m : machine) : Z * Z * Z * Z :=
  (gAcpiLastSleepTscBase m, gAcpiLastSleepNanoBase m,
   gAcpiLastWakeTscBase m, gAcpiLastWakeNanoBase m).

(** ** Computations *)

(** A routine either returns with a value and a new machine, stops at a
    failed assertion, or is still inside a loop when the fuel is spent. *)
Inductive outcome (A : Type) : Type :=
| Done (a : A) (m : machine)
| Panic (why : assertion)
| Spin.

Arguments Done {A} a m.
Arguments Panic {A} why.
Arguments Spin {A}.

Definition M (A : Type) : Type := machine -> outcome A.

Definition ret {A} (a : A) : M A := fun m => Done a m.

Definition bind {A B} (c : M A) (k : A -> M B) : M B :=
  fun m => match c m with
           | Done a m' => k a m'
           | Panic why => Panic why
           | Spin => Spin
           end.

Notation "x <- c ;; k" := (bind c (fun x => k))
  (at level 61, c at next level, right associativity).
Notation "c ;;; k" := (bind c (fun _ => k))
  (at level 61, right associativity).

Definition gets {A} (f : machine -> A) : M A := fun m => Done (f m) m.
Definition modify (f : machine -> machine) : M unit := fun m => Done tt (f m).
Definition call (e : event) : M unit :=
  modify (fun m => set_trace (trace m ++ [e]) m).
Definition assert (b : bool) (why : assertion) : M unit :=
  fun m => if b then Done tt m else Panic why.
Definition when (b : bool) (c : M unit) : M unit := if b then c else ret tt.

(** ** The routines of rtclock.c *)

(** What the file takes from its headers and from the collaborators it
    calls: the platform layer's cycle converter and base nudge, the timer
    driver behind [rtc_timer], the time-stamp counter, and the build
    configuration. *)
Class Platform : Type := {
  (* macros of headers outside the file *)
  SLOW_TSC_THRESHOLD : Z;
  EndOfAllTime : Z;
  NSEC_PER_USEC : Z;
  (* whether the file is built with __DARLING__ defined *)
  DARLING : bool;
  (* the value the time-stamp counter shows at its k-th read *)
  tsc_at_read : nat -> Z;
  (* the platform's cycle converter and its nudge of the cycle base *)
  _rtc_tsc_to_nanoseconds : Z -> pal_rtc_nanotime_t -> Z;
  _rtc_nanotime_adjust : Z -> pal_rtc_nanotime_t -> pal_rtc_nanotime_t;
  (* rtc_timer->rtc_set: the deadline the timer hardware was armed for *)
  rtc_set : Z -> Z -> Z
}.

Section RTClock.

Context {P : Platform}.

Definition rdtsc64 : M Z :=
  fun m => Done (u64 (tsc_at_read (tsc_reads m)))
                (set_tsc_reads (S (tsc_reads m)) m).

(** Modelled from the spec: [_pal_rtc_nanotime_store] belongs to the
    platform layer and is not part of the translated file; it stores the
    four components of the calibration tuple (cycle base, time base,
    scale, shift) into the tuple. *)
Definition _pal_rtc_nanotime_store (tsc nsec scale shift : Z) : M unit :=
  modify (set_nanotime_info (mk_nanotime tsc nsec scale shift)).

(** Nanotime at counter value [tsc] under the tuple [rntp], as
    [rtc_clock_napped] computes it for the tuple in force. *)
Definition nanotime_at (tsc : Z) (rntp : pal_rtc_nanotime_t) : Z :=
  u64 (ns_base rntp + _rtc_tsc_to_nanoseconds (u64 (tsc - tsc_base rntp)) rntp).

(** Modelled from the spec: [_rtc_nanotime_read] is an inline of a header
    outside the file; the spec's read is a function of the current cycle
    count and the tuple that delegates to the cycle converter. *)
Definition _rtc_nanotime_read : M Z :=
  tsc <- rdtsc64 ;;
  rntp <- gets pal_rtc_nanotime_info ;;
  ret (nanotime_at tsc rntp).

Definition rtc_timer_start : M unit :=
  when (negb DARLING) (modify (set_rtcDeadline EndOfAllTime)) ;;;
  call timer_resync_deadlines.

Definition _absolutetime_to_microtime (abstime : Z) : Z * Z * Z :=
  let secs := abstime / NSEC_PER_SEC in
  let remain := u32 (abstime mod NSEC_PER_SEC) in
  let microsecs := remain / NSEC_PER_USEC in
  (remain, secs, microsecs).

Definition _absolutetime_to_nanotime (abstime : Z) : Z * Z :=
  (abstime / NSEC_PER_SEC, u32 (abstime mod NSEC_PER_SEC)).

Definition rtc_nanotime_set_commpage : M unit :=
  rntp <- gets pal_rtc_nanotime_info ;;
  call (commpage_set_nanotime (tsc_base rntp) (ns_base rntp)
                              (scale rntp) (shift rntp)).

(** [rntp] is always [&pal_rtc_nanotime_info]. *)
Definition _rtc_nanotime_init (base : Z) : M unit :=
  tsc <- rdtsc64 ;;
  rntp <- gets pal_rtc_nanotime_info ;;
  _pal_rtc_nanotime_store tsc base (scale rntp) (shift rntp).

Definition rtc_nanotime_init (base : Z) : M unit :=
  modify (fun m => set_last_sleep (tsc_base (pal_rtc_nanotime_info m))
                                  (ns_base (pal_rtc_nanotime_info m)) m) ;;;
  _rtc_nanotime_init base ;;;
  modify (fun m => set_last_wake (tsc_base (pal_rtc_nanotime_info m))
                                 (ns_base (pal_rtc_nanotime_info m)) m) ;;;
  rtc_nanotime_set_commpage.

(** [splclock()] before and [splx(s)] after bracket the publication and
    leave the interrupt level as it was. *)
Definition rtc_nanotime_init_commpage : M unit :=
  rtc_nanotime_set_commpage.

Definition rtc_nanotime_read : M Z := _rtc_nanotime_read.

Definition rtc_clock_napped (base new_tsc_base : Z) : M unit :=
  ints <- gets interrupts_enabled ;;
  assert (negb ints) assert_interrupts_disabled ;;;
  tsc <- rdtsc64 ;;
  rntp <- gets pal_rtc_nanotime_info ;;
  let oldnsecs :=
    u64 (ns_base rntp
         + _rtc_tsc_to_nanoseconds (u64 (tsc - tsc_base rntp)) rntp) in
  let newnsecs :=
    u64 (base + _rtc_tsc_to_nanoseconds (u64 (tsc - new_tsc_base)) rntp) in
  if oldnsecs <? newnsecs then
    _pal_rtc_nanotime_store new_tsc_base base (scale rntp) (shift rntp) ;;;
    rtc_nanotime_set_commpage
  else ret tt.

Definition rtc_clock_adjust (tsc_base_delta : Z) : M unit :=
  ints <- gets interrupts_enabled ;;
  assert (negb ints) assert_interrupts_disabled ;;;
  assert (tsc_base_delta <? 100) assert_tsc_base_delta_small ;;;
  modify (fun m => set_nanotime_info
                     (_rtc_nanotime_adjust tsc_base_delta
                                           (pal_rtc_nanotime_info m)) m) ;;;
  rtc_nanotime_set_commpage.

Definition rtc_sleep_wakeup (base : Z) : M unit :=
  call rtc_config ;;;
  rtc_nanotime_init base.

Definition rtc_decrementer_configure : M unit :=
  call rtc_config.

(** The shift search of [rtc_set_timescale]:
    [while (cycles <= SLOW_TSC_THRESHOLD) { shift++; cycles <<= 1; }]
    on a [uint64_t cycles] and a [uint32_t shift]. *)
Fixpoint slow_tsc_loop (fuel : nat) (cycles shift : Z) : option (Z * Z) :=
  match fuel with
  | O => None
  | S fuel' =>
      if cycles <=? SLOW_TSC_THRESHOLD
      then slow_tsc_loop fuel' (u64 (Z.shiftl cycles 1)) (u32 (shift + 1))
      else Some (cycles, shift)
  end.

(** The quotient that is cast to the 32-bit [scale] field. *)
Definition scale_quotient (cycles : Z) : Z :=
  u64 (Z.shiftl NSEC_PER_SEC 32) / cycles.

Definition rtc_set_timescale (fuel : nat) (cycles : Z) : M unit :=
  match slow_tsc_loop fuel cycles 0 with
  | None => fun _ => Spin
  | Some (cycles, shift') =>
      modify (fun m =>
        let rntp := pal_rtc_nanotime_info m in
        set_nanotime_info
          (mk_nanotime (tsc_base rntp) (ns_base rntp)
                       (u32 (scale_quotient cycles)) (shift rntp)) m) ;;;
      modify (fun m =>
        let rntp := pal_rtc_nanotime_info m in
        set_nanotime_info
          (mk_nanotime (tsc_base rntp) (ns_base rntp)
                       (scale rntp) shift') m) ;;;
      rebase <- gets tsc_rebase_abs_time ;;
      when (rebase =? 0)
        (tsc <- rdtsc64 ;;
         boot <- gets tsc_at_boot ;;
         rntp <- gets pal_rtc_nanotime_info ;;
         modify (set_tsc_rebase_abs_time
                   (u64 (_rtc_tsc_to_nanoseconds (u64 (tsc - boot)) rntp)))) ;;;
      rtc_nanotime_init 0
  end.

Definition rtclock_early_init (fuel : nat) : M unit :=
  freq <- gets tscFreq ;;
  assert (negb (freq =? 0)) assert_tscFreq ;;;
  rtc_set_timescale fuel freq.

Definition rtc_export_speed (cyc_per_sec : Z) : M Z :=
  rntp <- gets pal_rtc_nanotime_info ;;
  when (negb (shift rntp =? 0)) (call (printf_slow_tsc (shift rntp))) ;;;
  let cycles :=
    u64 (u64 (cyc_per_sec + UI_CPUFREQ_ROUNDING_FACTOR / 2)
         / UI_CPUFREQ_ROUNDING_FACTOR * UI_CPUFREQ_ROUNDING_FACTOR) in
  modify (fun m =>
    let i := gPEClockFrequencyInfo m in
    set_frequency_info
      (mk_freq_info (if 4294967296 <=? cycles then 4294967295 else cycles)
                    cycles
                    (cpu_frequency_min_hz i) (cpu_frequency_max_hz i)) m) ;;;
  call (kprintf_frequency cycles cyc_per_sec) ;;;
  ret cycles.

Definition rtclock_init : M Z :=
  when (negb DARLING)
    (ints <- gets interrupts_enabled ;;
     assert (negb ints) assert_interrupts_disabled ;;;
     master <- gets on_master_cpu ;;
     when master
       (freq <- gets tscFreq ;;
        assert (negb (freq =? 0)) assert_tscFreq ;;;
        cycles <- rtc_export_speed freq ;;
        modify (fun m =>
          let i := gPEClockFrequencyInfo m in
          set_frequency_info
            (mk_freq_info (cpu_clock_rate_hz i) (cpu_frequency_hz i)
                          cycles cycles) m) ;;;
        call rtc_timer_init ;;;
        call clock_timebase_init ;;;
        call ml_init_lock_timeout ;;;
        call (ml_init_delay_spin_threshold 10)) ;;;
     call rtc_config ;;;
     rtc_timer_start) ;;;
  ret 1.

Definition clock_get_system_microtime : M (Z * Z) :=
  now <- rtc_nanotime_read ;;
  let '(_, secs, microsecs) := _absolutetime_to_microtime now in
  ret (secs, microsecs).

Definition clock_get_system_nanotime : M (Z * Z) :=
  now <- rtc_nanotime_read ;;
  ret (_absolutetime_to_nanotime now).

Definition clock_gettimeofday_set_commpage
    (abstime sec frac scale tick_per_sec : Z) : M unit :=
  call (commpage_set_timestamp abstime sec frac scale tick_per_sec).

(** [mach_timebase_info]: the two fields [clock_timebase_info] assigns. *)
Record mach_timebase_info : Type := mk_timebase_info {
  numer : Z;
  denom : Z
}.

Definition clock_timebase_info (info : mach_timebase_info) : mach_timebase_info :=
  let denom' := 1 in
  mk_timebase_info denom' denom'.

Definition rtclock_intr (tregs : x86_saved_state_t) : M unit :=
  lvl <- gets preemption_level ;;
  assert (0 <? lvl) assert_preemption_level ;;;
  ints <- gets interrupts_enabled ;;
  assert (negb ints) assert_interrupts_disabled ;;;
  let '(user_mode, rip) :=
    match tregs with
    | saved_state64 cs rip => (negb (Z.land cs 3 =? 0), rip)
    | saved_state32 cs eip => (negb (Z.land cs 3 =? 0), eip)
    end in
  call (timer_intr user_mode rip).

(** Compiled only when [__DARLING__] is not defined. *)
Definition setPop (time : Z) : M Z :=
  r <- (if (time =? 0) || (time =? EndOfAllTime)
        then
          call (rtc_set_request 0 0) ;;;
          ret (EndOfAllTime, 0, rtc_set 0 0)
        else
          now <- rtc_nanotime_read ;;
          call (rtc_set_request time now) ;;;
          ret (time, now, rtc_set time now)) ;;
  let '(time, now, pop) := r in
  modify (set_rtcDeadline time) ;;;
  modify (set_rtcPop pop) ;;;
  ret (u64 (pop - now)).

Definition mach_absolute_time : M Z := rtc_nanotime_read.
Definition mach_approximate_time : M Z := rtc_nanotime_read.

Definition clock_interval_to_absolutetime_interval
    (interval scale_factor : Z) : Z :=
  u64 (interval * scale_factor).

Definition absolutetime_to_microtime (abstime : Z) : Z * Z :=
  let '(_, secs, microsecs) := _absolutetime_to_microtime abstime in
  (secs, microsecs).

Definition nanotime_to_absolutetime (secs nanosecs : Z) : Z :=
  u64 (u64 (secs * NSEC_PER_SEC) + nanosecs).

Definition absolutetime_to_nanoseconds (abstime : Z) : Z := abstime.

Definition nanoseconds_to_absolutetime (nanoseconds : Z) : Z := nanoseconds.

Fixpoint machine_delay_until (fuel : nat) (interval deadline : Z) : M unit :=
  match fuel with
  | O => fun _ => Spin
  | S fuel' =>
      now <- mach_absolute_time ;;
      if now <? deadline
      then call cpu_pause ;;; machine_delay_until fuel' interval deadline
      else ret tt
  end.

End RTClock.

(** ** The spec's reading of two operations *)

Section SpecReading.

Context {P : Platform}.

(** The tuple an idle exit proposes: the supplied pair with the scale and
    shift in force. *)
Definition napped_candidate (base new_tsc_base : Z) (rntp : pal_rtc_nanotime_t)
  : pal_rtc_nanotime_t :=
  mk_nanotime new_tsc_base base (scale rntp) (shift rntp).

(** The cycle converter reads nothing of the tuple but its scale and
    shift. *)
Definition converter_reads_scale_shift : Prop :=
  forall d t1 t2,
    scale t1 = scale t2 -> shift t1 = shift t2 ->
    _rtc_tsc_to_nanoseconds d t1 = _rtc_tsc_to_nanoseconds d t2.

(** The spec's [force_reevaluation]: the recorded deadline becomes the
    sentinel, without touching hardware. *)
Definition spec_force_reevaluation : M unit :=
  modify (set_rtcDeadline EndOfAllTime).

(** The spec's full reset, in the order of its sentence: sleep snapshot,
    init, wake snapshot, republish (the four steps of [rtc_nanotime_init]),
    then the timer's startup configuration, then the forced
    re-evaluation. *)
Definition spec_on_sleep_wakeup (base : Z) : M unit :=
  rtc_nanotime_init base ;;;
  call rtc_config ;;;
  spec_force_reevaluation.

(** The spec's return value of a deadline request: the signed difference
    between the requested and the achieved arm time, in either sign
    convention, as a 64-bit value. *)
Definition spec_request_delta (requested achieved delta : Z) : Prop :=
  delta = u64 (achieved - requested) \/ delta = u64 (requested - achieved).

(** The scale and shift a calibration left in the tuple, when it
    returned. *)
Definition calibration (o : outcome unit) : option (Z * Z) :=
  match o with
  | Done _ m => Some (scale (pal_rtc_nanotime_info m),
                      shift (pal_rtc_nanotime_info m))
  | _ => None
  end.

(** A computation that leaves the four sleep/wake snapshots as they
    were. *)
Definition preserves_snapshots {A} (c : M A) : Prop :=
  forall m a m', c m = Done a m' -> acpi_snapshots m' = acpi_snapshots m.

End SpecReading.

(** ** A concrete platform and machine *)

(** A 2 GHz counter that advances by ten cycles between reads, a converter
    that multiplies the shifted delta by the Q32 scale, a nudge that adds
    to the cycle base, and a timer that arms three nanoseconds late. *)
Definition sample_platform : Platform := {|
  SLOW_TSC_THRESHOLD := 1000000067;
  EndOfAllTime := 18446744073709551615;
  NSEC_PER_USEC := 1000;
  DARLING := false;
  tsc_at_read := fun k => 1000 + 10 * Z.of_nat k;
  _rtc_tsc_to_nanoseconds :=
    fun d t => u64 (Z.shiftr (u64 (Z.shiftl d (shift t)) * scale t) 32);
  _rtc_nanotime_adjust :=
    fun d t => mk_nanotime (u64 (tsc_base t + d)) (ns_base t) (scale t) (shift t);
  rtc_set := fun time now => time + 3
|}.

(** The same platform built with [__DARLING__]. *)
Definition sample_platform_darling : Platform := {|
  SLOW_TSC_THRESHOLD := 1000000067;
  EndOfAllTime := 18446744073709551615;
  NSEC_PER_USEC := 1000;
  DARLING := true;
  tsc_at_read := fun k => 1000 + 10 * Z.of_nat k;
  _rtc_tsc_to_nanoseconds :=
    fun d t => u64 (Z.shiftr (u64 (Z.shiftl d (shift t)) * scale t) 32);
  _rtc_nanotime_adjust :=
    fun d t => mk_nanotime (u64 (tsc_base t + d)) (ns_base t) (scale t) (shift t);
  rtc_set := fun time now => time + 3
|}.

(** A machine before calibration, interrupts disabled, on the master
    processor, with a deadline of 5 recorded. *)
Definition boot_machine : machine := {|
  pal_rtc_nanotime_info := mk_nanotime 0 0 0 0;
  tsc_rebase_abs_time := 0;
  gAcpiLastSleepTscBase := 0;
  gAcpiLastSleepNanoBase := 0;
  gAcpiLastWakeTscBase := 0;
  gAcpiLastWakeNanoBase := 0;
  rtcDeadline := 5;
  rtcPop := 0;
  gPEClockFrequencyInfo := mk_freq_info 0 0 0 0;
  tscFreq := 2000000000;
  tsc_at_boot := 0;
  interrupts_enabled := false;
  preemption_level := 1;
  on_master_cpu := true;
  tsc_reads := 0;
  trace := []
|}.

(** A calibrated machine: scale [2^31] is half a nanosecond per cycle. *)
Definition running_machine : machine :=
  set_nanotime_info (mk_nanotime 200 100 2147483648 0) boot_machine.

(** A machine whose frequency measurement came out as zero. *)
Definition unmeasured_machine : machine := {|
  pal_rtc_nanotime_info := mk_nanotime 0 0 0 0;
  tsc_rebase_abs_time := 0;
  gAcpiLastSleepTscBase := 0;
  gAcpiLastSleepNanoBase := 0;
  gAcpiLastWakeTscBase := 0;
  gAcpiLastWakeNanoBase := 0;
  rtcDeadline := 0;
  rtcPop := 0;
  gPEClockFrequencyInfo := mk_freq_info 0 0 0 0;
  tscFreq := 0;
  tsc_at_boot := 0;
  interrupts_enabled := false;
  preemption_level := 1;
  on_master_cpu := true;
  tsc_reads := 0;
  trace := []
|}.

(** ** What readers of the commpage see *)

Definition is_nanotime_publication (e : event) : bool :=
  match e with
  | commpage_set_nanotime _ _ _ _ => true
  | _ => false
  end.

(** The tuple a reader of the commpage sees after the calls of a trace:
    the arguments of the latest [commpage_set_nanotime], or [seen] when
    the trace has none. *)
Fixpoint commpage_view (t : list event) (seen : option pal_rtc_nanotime_t)
  : option pal_rtc_nanotime_t :=
  match t with
  | [] => seen
  | commpage_set_nanotime tsc ns sc sh :: t' =>
      commpage_view t' (Some (mk_nanotime tsc ns sc sh))
  | _ :: t' => commpage_view t' seen
  end.

(** The commpage shows the tuple the kernel holds. *)
Definition commpage_in_sync (m : machine) : Prop :=
  commpage_view (trace m) None = Some (pal_rtc_nanotime_info m).

(** A computation that neither changes the tuple nor what the commpage
    shows of it. *)
Definition keeps_time_base {A} (c : M A) : Prop :=
  forall m a m',
    c m = Done a m' ->
    pal_rtc_nanotime_info m' = pal_rtc_nanotime_info m /\
    forall seen,
      commpage_view (trace m') seen = commpage_view (trace m) seen.

(** The nanotime under the tuple [t] at the k-th read of the counter. *)
Definition reading {P : Platform} (t : pal_rtc_nanotime_t) (k : nat) : Z :=
  nanotime_at (u64 (tsc_at_read k)) t.

(** The concrete platform with a counter that stands still. *)
Definition stalled_platform : Platform := {|
  SLOW_TSC_THRESHOLD := 1000000067;
  EndOfAllTime := 18446744073709551615;
  NSEC_PER_USEC := 1000;
  DARLING := false;
  tsc_at_read := fun _ => 1000;
  _rtc_tsc_to_nanoseconds :=
    fun d t => u64 (Z.shiftr (u64 (Z.shiftl d (shift t)) * scale t) 32);
  _rtc_nanotime_adjust :=
    fun d t => mk_nanotime (u64 (tsc_base t + d)) (ns_base t) (scale t) (shift t);
  rtc_set := fun time now => time + 3
|}.

(** The calibrated machine with interrupts left enabled. *)
Definition interruptible_machine : machine := {|
  pal_rtc_nanotime_info := mk_nanotime 200 100 2147483648 0;
  tsc_rebase_abs_time := 0;
  gAcpiLastSleepTscBase := 0;
  gAcpiLastSleepNanoBase := 0;
  gAcpiLastWakeTscBase := 0;
  gAcpiLastWakeNanoBase := 0;
  rtcDeadline := 5;
  rtcPop := 0;
  gPEClockFrequencyInfo := mk_freq_info 0 0 0 0;
  tscFreq := 2000000000;
  tsc_at_boot := 0;
  interrupts_enabled := true;
  preemption_level := 1;
  on_master_cpu := true;
  tsc_reads := 0;
  trace := []
|}.

(** The machine that calibrating [boot_machine] at 2 GHz leaves on the
    concrete platform. *)
Definition calibrated_machine : machine :=
  match @rtc_set_timescale sample_platform 64 2000000000 boot_machine with
  | Done _ m => m
  | _ => boot_machine
  end.

(** * Properties *)

(** ** Fixed-width arithmetic *)

Lemma u64_small (x : Z) : 0 <= x < 2 ^ 64 -> u64 x = x.
Proof. intros H. unfold u64. apply Z.mod_small. exact H. Qed.

Lemma u32_small (x : Z) : 0 <= x < 2 ^ 32 -> u32 x = x.
Proof. intros H. unfold u32. apply Z.mod_small. exact H. Qed.

Lemma u32_range (x : Z) : 0 <= u32 x < 2 ^ 32.
Proof. unfold u32. apply Z.mod_pos_bound. lia. Qed.

Lemma shiftl_1_double (x : Z) : Z.shiftl x 1 = 2 * x.
Proof. rewrite Z.shiftl_mul_pow2 by lia. lia. Qed.

Lemma nsec_dividend : u64 (Z.shiftl NSEC_PER_SEC 32) = NSEC_PER_SEC * 2 ^ 32.
Proof. reflexivity. Qed.

(** The quotient fits in 32 bits exactly when the divisor exceeds
    [NSEC_PER_SEC]. *)
Lemma scale_quotient_bound (cycles : Z) :
  NSEC_PER_SEC < cycles -> 0 <= scale_quotient cycles < 2 ^ 32.
Proof.
  intros H. unfold scale_quotient. rewrite nsec_dividend.
  unfold NSEC_PER_SEC in *. split.
  - apply Z.div_pos; lia.
  - apply Z.div_lt_upper_bound; lia.
Qed.

Lemma scale_quotient_overflow (cycles : Z) :
  0 < cycles <= NSEC_PER_SEC -> 2 ^ 32 <= scale_quotient cycles.
Proof.
  intros H. unfold scale_quotient. rewrite nsec_dividend.
  unfold NSEC_PER_SEC in *.
  apply Z.div_le_lower_bound; lia.
Qed.

(** ** The shift search *)

Section ShiftSearch.

Context {P : Platform}.

(** With a non-negative threshold a zero rate never leaves the loop:
    doubling zero gives zero. *)
Lemma slow_tsc_loop_zero (fuel : nat) :
  0 <= SLOW_TSC_THRESHOLD ->
  forall shift, slow_tsc_loop fuel 0 shift = None.
Proof.
  intros HT. induction fuel as [|fuel IH]; intros sh; simpl.
  - reflexivity.
  - destruct (Z.leb_spec 0 SLOW_TSC_THRESHOLD) as [_|Hlt]; [|lia].
    change (u64 (Z.shiftl 0 1)) with 0. apply IH.
Qed.

(** More fuel does not change a result already reached. *)
Lemma slow_tsc_loop_more_fuel (fuel : nat) :
  forall cycles shift r,
    slow_tsc_loop fuel cycles shift = Some r ->
    forall fuel', (fuel <= fuel')%nat -> slow_tsc_loop fuel' cycles shift = Some r.
Proof.
  induction fuel as [|fuel IH]; intros cycles sh r H fuel' Hle; simpl in H.
  - discriminate.
  - destruct fuel' as [|fuel']; [lia|]. simpl.
    destruct (cycles <=? SLOW_TSC_THRESHOLD).
    + apply (IH _ _ _ H). lia.
    + exact H.
Qed.

(** A rate that [n] doublings carry over the threshold leaves the loop
    after some [k <= n] doublings, none of which wraps. *)
Lemma slow_tsc_loop_doubles (n : nat) :
  SLOW_TSC_THRESHOLD < 2 ^ 63 ->
  forall cycles shift,
    1 <= cycles < 2 ^ 64 ->
    0 <= shift -> shift + Z.of_nat n < 2 ^ 32 ->
    SLOW_TSC_THRESHOLD < cycles * 2 ^ Z.of_nat n ->
    exists k,
      0 <= k <= Z.of_nat n /\
      slow_tsc_loop (S n) cycles shift = Some (cycles * 2 ^ k, shift + k) /\
      SLOW_TSC_THRESHOLD < cycles * 2 ^ k < 2 ^ 64 /\
      (cycles <= SLOW_TSC_THRESHOLD -> 0 < k) /\
      (SLOW_TSC_THRESHOLD < cycles -> k = 0).
Proof.
  intros HT. induction n as [|n IH]; intros cycles sh Hc Hs Hsn Hover.
  - exists 0. change (2 ^ Z.of_nat 0) with 1 in Hover.
    rewrite Z.mul_1_r in Hover. simpl.
    destruct (Z.leb_spec cycles SLOW_TSC_THRESHOLD) as [Hle|Hgt]; [lia|].
    rewrite Z.mul_1_r, Z.add_0_r. repeat split; lia.
  - cbn [slow_tsc_loop].
    destruct (Z.leb_spec cycles SLOW_TSC_THRESHOLD) as [Hle|Hgt].
    + rewrite shiftl_1_double.
      rewrite (u64_small (2 * cycles)) by lia.
      rewrite (u32_small (sh + 1)) by lia.
      assert (Hpow : 2 ^ Z.of_nat (S n) = 2 * 2 ^ Z.of_nat n).
      { rewrite Nat2Z.inj_succ, Z.pow_succ_r by lia. reflexivity. }
      assert (Hover' : SLOW_TSC_THRESHOLD < 2 * cycles * 2 ^ Z.of_nat n).
      { rewrite Hpow in Hover.
        replace (2 * cycles * 2 ^ Z.of_nat n)
          with (cycles * (2 * 2 ^ Z.of_nat n)) by ring.
        exact Hover. }
      destruct (IH (2 * cycles) (sh + 1)) as (k & Hk & Hrun & Hbound & _ & _);
        try lia.
      exists (k + 1).
      assert (Hk1 : 2 ^ (k + 1) = 2 * 2 ^ k).
      { rewrite Z.pow_add_r by lia. lia. }
      rewrite Hk1.
      replace (cycles * (2 * 2 ^ k)) with (2 * cycles * 2 ^ k) by ring.
      replace (sh + (k + 1)) with (sh + 1 + k) by lia.
      repeat split; try lia. exact Hrun.
    + exists 0. rewrite Z.mul_1_r, Z.add_0_r. repeat split; lia.
Qed.

(** Every non-zero 64-bit rate leaves the loop within 64 rounds. *)
Lemma slow_tsc_loop_terminates (fuel : nat) (cycles : Z) :
  0 <= SLOW_TSC_THRESHOLD < 2 ^ 63 ->
  1 <= cycles < 2 ^ 64 ->
  (64 <= fuel)%nat ->
  exists k,
    0 <= k <= 63 /\
    slow_tsc_loop fuel cycles 0 = Some (cycles * 2 ^ k, k) /\
    SLOW_TSC_THRESHOLD < cycles * 2 ^ k < 2 ^ 64 /\
    (cycles <= SLOW_TSC_THRESHOLD -> 0 < k) /\
    (SLOW_TSC_THRESHOLD < cycles -> k = 0).
Proof.
  intros HT Hc Hfuel.
  assert (Hover : SLOW_TSC_THRESHOLD < cycles * 2 ^ Z.of_nat 63).
  { change (2 ^ Z.of_nat 63) with 9223372036854775808.
    change (2 ^ 63) with 9223372036854775808 in HT. lia. }
  assert (Hroom : 0 + Z.of_nat 63 < 2 ^ 32) by (vm_compute; reflexivity).
  destruct (slow_tsc_loop_doubles 63 (proj2 HT) cycles 0 Hc (Z.le_refl 0)
              Hroom Hover)
    as (k & Hk & Hrun & Hbound & Hpos & Hzero).
  change (Z.of_nat 63) with 63 in Hk. rewrite Z.add_0_l in Hrun.
  exists k. split; [lia|]. split.
  - apply (slow_tsc_loop_more_fuel 64); [exact Hrun | exact Hfuel].
  - split; [exact Hbound|]. split; [exact Hpos | exact Hzero].
Qed.

End ShiftSearch.

(** ** The calibrator *)

Section Calibrator.

Context {P : Platform}.

(** What [rtc_set_timescale] leaves behind once the shift search has
    returned the inflated rate [eff] and the shift [sh]. *)
Lemma rtc_set_timescale_done (fuel : nat) (cycles eff sh : Z) (m : machine) :
  slow_tsc_loop fuel cycles 0 = Some (eff, sh) ->
  exists m',
    rtc_set_timescale fuel cycles m = Done tt m' /\
    scale (pal_rtc_nanotime_info m') = u32 (scale_quotient eff) /\
    shift (pal_rtc_nanotime_info m') = sh /\
    ns_base (pal_rtc_nanotime_info m') = 0 /\
    gAcpiLastSleepTscBase m' = tsc_base (pal_rtc_nanotime_info m) /\
    gAcpiLastSleepNanoBase m' = ns_base (pal_rtc_nanotime_info m) /\
    gAcpiLastWakeTscBase m' = tsc_base (pal_rtc_nanotime_info m') /\
    gAcpiLastWakeNanoBase m' = 0.
Proof.
  intros Hloop. unfold rtc_set_timescale. rewrite Hloop.
  unfold bind, modify, gets, when. cbn [tsc_rebase_abs_time set_nanotime_info].
  destruct (tsc_rebase_abs_time m =? 0);
    eexists; (split; [reflexivity|]); cbn; repeat split; reflexivity.
Qed.

(** C3. For every non-zero 64-bit frequency the shift search terminates
    with an inflated rate above the threshold, the quotient
    [(NSEC_PER_SEC << 32) / rate] is below [2^32], the cast to 32 bits
    returns it unchanged, and that quotient is the scale the tuple holds;
    the threshold is taken to be at least [NSEC_PER_SEC], as the source's
    comment on the loop says of it, and below [2^63]. *)
Theorem rtc_set_timescale_scale_fits (fuel : nat) (cycles : Z) (m : machine) :
  NSEC_PER_SEC <= SLOW_TSC_THRESHOLD < 2 ^ 63 ->
  1 <= cycles < 2 ^ 64 ->
  (64 <= fuel)%nat ->
  exists eff sh m',
    slow_tsc_loop fuel cycles 0 = Some (eff, sh) /\
    SLOW_TSC_THRESHOLD < eff < 2 ^ 64 /\
    0 <= scale_quotient eff < 2 ^ 32 /\
    u32 (scale_quotient eff) = scale_quotient eff /\
    rtc_set_timescale fuel cycles m = Done tt m' /\
    scale (pal_rtc_nanotime_info m') = scale_quotient eff /\
    shift (pal_rtc_nanotime_info m') = sh.
Proof.
  intros HT Hc Hfuel.
  assert (HT0 : 0 <= SLOW_TSC_THRESHOLD < 2 ^ 63)
    by (unfold NSEC_PER_SEC in HT; lia).
  destruct (slow_tsc_loop_terminates fuel cycles HT0 Hc Hfuel)
    as (k & _ & Hloop & Hbound & _ & _).
  assert (Hq : 0 <= scale_quotient (cycles * 2 ^ k) < 2 ^ 32)
    by (apply scale_quotient_bound; lia).
  destruct (rtc_set_timescale_done fuel cycles _ _ m Hloop)
    as (m' & Hrun & Hscale & Hshift & _).
  exists (cycles * 2 ^ k), k, m'.
  rewrite Hscale, (u32_small _ Hq). repeat split; try tauto; lia.
Qed.

(** C2, as the code has it.  The loop condition is
    [cycles <= SLOW_TSC_THRESHOLD]: every frequency from 1 up to and
    including the threshold gets a positive shift, every 64-bit frequency
    strictly above the threshold gets shift 0, and in both cases the scale
    the tuple holds is the whole quotient
    [(NSEC_PER_SEC << 32) / (cycles << shift)], which is below [2^32]: the
    32-bit cast cuts nothing off.  The threshold is taken to be at least
    [NSEC_PER_SEC], as the source's comment on the loop says of it, and
    below [2^63]. *)
Theorem rtc_set_timescale_shift_by_threshold
    (fuel : nat) (cycles : Z) (m : machine) :
  NSEC_PER_SEC <= SLOW_TSC_THRESHOLD < 2 ^ 63 ->
  1 <= cycles < 2 ^ 64 ->
  (64 <= fuel)%nat ->
  exists m',
    rtc_set_timescale fuel cycles m = Done tt m' /\
    (cycles <= SLOW_TSC_THRESHOLD ->
       0 < shift (pal_rtc_nanotime_info m')) /\
    (SLOW_TSC_THRESHOLD < cycles ->
       shift (pal_rtc_nanotime_info m') = 0) /\
    cycles * 2 ^ shift (pal_rtc_nanotime_info m') < 2 ^ 64 /\
    scale (pal_rtc_nanotime_info m')
      = scale_quotient (cycles * 2 ^ shift (pal_rtc_nanotime_info m')) /\
    0 <= scale_quotient (cycles * 2 ^ shift (pal_rtc_nanotime_info m'))
      < 2 ^ 32.
Proof.
  intros HT Hc Hfuel.
  assert (HT0 : 0 <= SLOW_TSC_THRESHOLD < 2 ^ 63)
    by (unfold NSEC_PER_SEC in HT; lia).
  destruct (slow_tsc_loop_terminates fuel cycles HT0 Hc Hfuel)
    as (k & _ & Hloop & Hbound & Hpos & Hzero).
  assert (Hq : 0 <= scale_quotient (cycles * 2 ^ k) < 2 ^ 32)
    by (apply scale_quotient_bound; lia).
  destruct (rtc_set_timescale_done fuel cycles _ _ m Hloop)
    as (m' & Hrun & Hscale & Hshift & _).
  exists m'. rewrite Hscale, Hshift, (u32_small _ Hq).
  split; [exact Hrun|]. split; [exact Hpos|]. split; [exact Hzero|].
  split; [exact (proj2 Hbound)|]. split; [reflexivity | exact Hq].
Qed.

(** The threshold itself is still inside the loop, whatever positive value
    it has. *)
Lemma slow_tsc_loop_at_threshold (fuel : nat) :
  1 <= SLOW_TSC_THRESHOLD < 2 ^ 63 ->
  (64 <= fuel)%nat ->
  slow_tsc_loop fuel SLOW_TSC_THRESHOLD 0 = Some (2 * SLOW_TSC_THRESHOLD, 1).
Proof.
  intros HT Hfuel. apply (slow_tsc_loop_more_fuel 2); [|lia].
  cbn [slow_tsc_loop]. rewrite Z.leb_refl, shiftl_1_double.
  rewrite (u64_small (2 * SLOW_TSC_THRESHOLD)) by lia.
  destruct (Z.leb_spec (2 * SLOW_TSC_THRESHOLD) SLOW_TSC_THRESHOLD); [lia|].
  reflexivity.
Qed.

(** A threshold below [NSEC_PER_SEC] would let a rate just above it
    through with a quotient of 33 bits or more. *)
Lemma scale_overflows_under_low_threshold (fuel : nat) :
  0 <= SLOW_TSC_THRESHOLD < NSEC_PER_SEC ->
  (1 <= fuel)%nat ->
  slow_tsc_loop fuel (SLOW_TSC_THRESHOLD + 1) 0 = Some (SLOW_TSC_THRESHOLD + 1, 0)
  /\ 2 ^ 32 <= scale_quotient (SLOW_TSC_THRESHOLD + 1).
Proof.
  intros HT Hfuel. split.
  - apply (slow_tsc_loop_more_fuel 1); [|exact Hfuel]. cbn [slow_tsc_loop].
    destruct (Z.leb_spec (SLOW_TSC_THRESHOLD + 1) SLOW_TSC_THRESHOLD); [lia|].
    reflexivity.
  - apply scale_quotient_overflow. lia.
Qed.

(** C7. With [tscFreq] zero, [rtclock_early_init] stops at
    [assert(tscFreq)] and leaves no machine behind; the calibrator itself,
    given zero, never leaves its shift search, whatever the fuel, so it
    returns no scale and shift. *)
Theorem zero_frequency_never_calibrated (fuel : nat) (m : machine) :
  0 <= SLOW_TSC_THRESHOLD ->
  (tscFreq m = 0 -> rtclock_early_init fuel m = Panic assert_tscFreq) /\
  slow_tsc_loop fuel 0 0 = None /\
  rtc_set_timescale fuel 0 m = Spin /\
  calibration (rtc_set_timescale fuel 0 m) = None.
Proof.
  intros HT.
  assert (Hspin : rtc_set_timescale fuel 0 m = Spin).
  { unfold rtc_set_timescale. rewrite (slow_tsc_loop_zero fuel HT 0).
    reflexivity. }
  split; [|split; [|split]].
  - intros Hz. unfold rtclock_early_init, bind, gets, assert.
    rewrite Hz. reflexivity.
  - apply slow_tsc_loop_zero. exact HT.
  - exact Hspin.
  - rewrite Hspin. reflexivity.
Qed.

End Calibrator.

(** ** The time base and the power-event routines *)

Section TimeBase.

Context {P : Platform}.

(** C9. For every origin time, [_rtc_nanotime_init] stores the counter
    value just read as the cycle base and the origin as the time base and
    keeps scale and shift; [rtc_nanotime_init], its only caller, ends with
    the publication of exactly that tuple to the commpage. *)
Theorem rtc_nanotime_init_rebases_and_publishes (base : Z) (m : machine) :
  let old := pal_rtc_nanotime_info m in
  let tsc := u64 (tsc_at_read (tsc_reads m)) in
  _rtc_nanotime_init base m =
    Done tt (set_nanotime_info (mk_nanotime tsc base (scale old) (shift old))
               (set_tsc_reads (S (tsc_reads m)) m)) /\
  exists m',
    rtc_nanotime_init base m = Done tt m' /\
    pal_rtc_nanotime_info m' = mk_nanotime tsc base (scale old) (shift old) /\
    trace m' =
      trace m ++ [commpage_set_nanotime tsc base (scale old) (shift old)].
Proof.
  cbv zeta. split.
  - reflexivity.
  - eexists. split; [reflexivity|]. split; reflexivity.
Qed.

(** C1. With interrupts disabled, [rtc_clock_napped] always returns.  When
    the candidate tuple gives a strictly later nanotime than the tuple in
    force at the counter value just read, the candidate replaces the tuple
    and is published; otherwise nothing but the count of counter reads
    changes: tuple, snapshots and trace stay as they were.  A publication
    happens exactly in the first case. *)
Theorem rtc_clock_napped_adopts_iff_later
    (base new_tsc_base : Z) (m : machine) :
  converter_reads_scale_shift ->
  interrupts_enabled m = false ->
  let old := pal_rtc_nanotime_info m in
  let cand := napped_candidate base new_tsc_base old in
  let tsc := u64 (tsc_at_read (tsc_reads m)) in
  let m1 := set_tsc_reads (S (tsc_reads m)) m in
  exists m',
    rtc_clock_napped base new_tsc_base m = Done tt m' /\
    (nanotime_at tsc old < nanotime_at tsc cand ->
       m' = set_trace
              (trace m ++ [commpage_set_nanotime new_tsc_base base
                             (scale old) (shift old)])
              (set_nanotime_info cand m1)) /\
    (nanotime_at tsc cand <= nanotime_at tsc old -> m' = m1) /\
    (pal_rtc_nanotime_info m' = cand /\ trace m' <> trace m
       <-> nanotime_at tsc old < nanotime_at tsc cand).
Proof.
  intros Hconv Hints. cbv zeta.
  assert (Hcand : nanotime_at (u64 (tsc_at_read (tsc_reads m)))
                    (napped_candidate base new_tsc_base (pal_rtc_nanotime_info m))
                  = u64 (base + _rtc_tsc_to_nanoseconds
                                  (u64 (u64 (tsc_at_read (tsc_reads m)) - new_tsc_base))
                                  (pal_rtc_nanotime_info m))).
  { unfold nanotime_at, napped_candidate. cbn [ns_base tsc_base].
    f_equal. f_equal. apply Hconv; reflexivity. }
  rewrite Hcand.
  unfold rtc_clock_napped, bind, gets, assert, rdtsc64. rewrite Hints.
  cbn [negb pal_rtc_nanotime_info set_tsc_reads tsc_reads].
  fold (nanotime_at (u64 (tsc_at_read (tsc_reads m))) (pal_rtc_nanotime_info m)).
  set (old_ns := nanotime_at _ _).
  set (new_ns := u64 (base + _)).
  destruct (Z.ltb_spec old_ns new_ns) as [Hlt|Hge].
  - eexists. split; [reflexivity|]. split; [|split].
    + intros _. reflexivity.
    + intros Hle. lia.
    + cbn. split; [intros _; exact Hlt|]. intros _. split; [reflexivity|].
      intros Heq. apply (f_equal (@length event)) in Heq.
      rewrite length_app in Heq. cbn in Heq. lia.
  - eexists. split; [reflexivity|]. split; [|split].
    + intros Hlt. lia.
    + intros _. reflexivity.
    + cbn. split; [|intros Hlt; lia]. intros [_ Hne]. now elim Hne.
Qed.

(** C4. [rtc_clock_adjust] stops at an assertion for every delta of 100 or
    more, whatever the machine, and with interrupts disabled it is the
    bound's own assertion that fails; for every delta below 100, 99
    included, with interrupts disabled it returns with the tuple nudged by
    the platform and published. *)
Theorem rtc_clock_adjust_bound (tsc_base_delta : Z) (m : machine) :
  (100 <= tsc_base_delta ->
     exists why, rtc_clock_adjust tsc_base_delta m = Panic why) /\
  (100 <= tsc_base_delta -> interrupts_enabled m = false ->
     rtc_clock_adjust tsc_base_delta m = Panic assert_tsc_base_delta_small) /\
  (0 <= tsc_base_delta < 100 -> interrupts_enabled m = false ->
     let t := _rtc_nanotime_adjust tsc_base_delta (pal_rtc_nanotime_info m) in
     rtc_clock_adjust tsc_base_delta m =
       Done tt (set_trace
                  (trace m ++ [commpage_set_nanotime (tsc_base t) (ns_base t)
                                 (scale t) (shift t)])
                  (set_nanotime_info t m))).
Proof.
  unfold rtc_clock_adjust, bind, gets, assert.
  split; [|split].
  - intros Hbig. destruct (interrupts_enabled m); cbn [negb].
    + eexists. reflexivity.
    + destruct (Z.ltb_spec tsc_base_delta 100); [lia|]. eexists. reflexivity.
  - intros Hbig Hints. rewrite Hints. cbn [negb].
    destruct (Z.ltb_spec tsc_base_delta 100); [lia|]. reflexivity.
  - intros Hsmall Hints. rewrite Hints. cbn [negb].
    destruct (Z.ltb_spec tsc_base_delta 100); [|lia]. reflexivity.
Qed.

(** C5, as the code has it.  For every origin time [rtc_sleep_wakeup]
    returns, having first re-applied the timer's fixed configuration, then
    recorded the tuple's bases as the sleep snapshot, rebased the tuple at
    the counter value just read with the origin as time base and scale and
    shift kept, recorded the new bases as the wake snapshot and published
    the tuple.  It records no deadline and asks for no deadline
    re-evaluation. *)
Theorem rtc_sleep_wakeup_sequence (base : Z) (m : machine) :
  let old := pal_rtc_nanotime_info m in
  let tsc := u64 (tsc_at_read (tsc_reads m)) in
  exists m',
    rtc_sleep_wakeup base m = Done tt m' /\
    trace m' =
      trace m ++ [rtc_config;
                  commpage_set_nanotime tsc base (scale old) (shift old)] /\
    acpi_snapshots m' = (tsc_base old, ns_base old, tsc, base) /\
    pal_rtc_nanotime_info m' = mk_nanotime tsc base (scale old) (shift old) /\
    rtcDeadline m' = rtcDeadline m /\
    rtcPop m' = rtcPop m.
Proof.
  cbv zeta. eexists. split; [reflexivity|].
  cbn. rewrite <- app_assoc. repeat split.
Qed.

End TimeBase.

(** ** Who writes the sleep/wake snapshots *)

Section Snapshots.

Context {P : Platform}.

Lemma preserves_ret {A} (a : A) : preserves_snapshots (ret a).
Proof. intros m a' m' H. inversion H. reflexivity. Qed.

Lemma preserves_gets {A} (f : machine -> A) : preserves_snapshots (gets f).
Proof. intros m a' m' H. inversion H. reflexivity. Qed.

Lemma preserves_assert (b : bool) (why : assertion) :
  preserves_snapshots (assert b why).
Proof.
  intros m a' m' H. unfold assert in H. destruct b; inversion H. reflexivity.
Qed.

Lemma preserves_modify (f : machine -> machine) :
  (forall m, acpi_snapshots (f m) = acpi_snapshots m) ->
  preserves_snapshots (modify f).
Proof. intros Hf m a' m' H. inversion H. apply Hf. Qed.

Lemma preserves_call (e : event) : preserves_snapshots (call e).
Proof. apply preserves_modify. reflexivity. Qed.

Lemma preserves_rdtsc64 : preserves_snapshots rdtsc64.
Proof. intros m a' m' H. inversion H. reflexivity. Qed.

Lemma preserves_bind {A B} (c : M A) (k : A -> M B) :
  preserves_snapshots c ->
  (forall a, preserves_snapshots (k a)) ->
  preserves_snapshots (bind c k).
Proof.
  intros Hc Hk m b m' H. unfold bind in H.
  destruct (c m) as [a m1| |] eqn:E; try discriminate.
  rewrite (Hk a m1 b m' H). exact (Hc m a m1 E).
Qed.

Lemma preserves_when (b : bool) (c : M unit) :
  preserves_snapshots c -> preserves_snapshots (when b c).
Proof. intros Hc. destruct b; [exact Hc | apply preserves_ret]. Qed.

Lemma preserves_store (tsc nsec sc sh : Z) :
  preserves_snapshots (_pal_rtc_nanotime_store tsc nsec sc sh).
Proof. apply preserves_modify. reflexivity. Qed.

Create HintDb snapshots.

#[local] Hint Resolve preserves_ret preserves_gets preserves_assert
  preserves_call preserves_rdtsc64 preserves_when preserves_store : snapshots.

(** Walk a routine's body down to its primitive steps. *)
Ltac frame :=
  repeat first
    [ solve [auto with snapshots]
    | apply preserves_bind; [|intros ?]
    | apply preserves_when
    | apply preserves_modify; intros ?; reflexivity
    | match goal with
      | |- preserves_snapshots (if ?b then _ else _) => destruct b
      | |- preserves_snapshots (let '(_, _) := ?p in _) => destruct p
      | |- preserves_snapshots (match ?t with saved_state64 _ _ => _
                                            | saved_state32 _ _ => _ end) =>
          destruct t
      end ].

Lemma preserves_rtc_nanotime_set_commpage :
  preserves_snapshots rtc_nanotime_set_commpage.
Proof. unfold rtc_nanotime_set_commpage. frame. Qed.

Lemma preserves_rtc_nanotime_read : preserves_snapshots rtc_nanotime_read.
Proof. unfold rtc_nanotime_read, _rtc_nanotime_read. frame. Qed.

Lemma preserves_rtc_timer_start : preserves_snapshots rtc_timer_start.
Proof. unfold rtc_timer_start. frame. Qed.

Lemma preserves_rtc_export_speed (cyc_per_sec : Z) :
  preserves_snapshots (rtc_export_speed cyc_per_sec).
Proof. unfold rtc_export_speed. frame. Qed.

#[local] Hint Resolve preserves_rtc_nanotime_set_commpage
  preserves_rtc_nanotime_read preserves_rtc_timer_start
  preserves_rtc_export_speed : snapshots.

Lemma preserves_rtc_clock_napped (base new_tsc_base : Z) :
  preserves_snapshots (rtc_clock_napped base new_tsc_base).
Proof. unfold rtc_clock_napped. frame. Qed.

Lemma preserves_rtc_clock_adjust (tsc_base_delta : Z) :
  preserves_snapshots (rtc_clock_adjust tsc_base_delta).
Proof. unfold rtc_clock_adjust. frame. Qed.

Lemma preserves_rtclock_init : preserves_snapshots rtclock_init.
Proof. unfold rtclock_init. frame. Qed.

Lemma preserves_rtclock_intr (tregs : x86_saved_state_t) :
  preserves_snapshots (rtclock_intr tregs).
Proof. unfold rtclock_intr. frame. Qed.

Lemma preserves_setPop (time : Z) : preserves_snapshots (setPop time).
Proof. unfold setPop. frame. Qed.

Lemma preserves_clock_get_system_microtime :
  preserves_snapshots clock_get_system_microtime.
Proof. unfold clock_get_system_microtime. frame. Qed.

Lemma preserves_clock_get_system_nanotime :
  preserves_snapshots clock_get_system_nanotime.
Proof. unfold clock_get_system_nanotime. frame. Qed.

Lemma preserves_machine_delay_until (fuel : nat) (interval deadline : Z) :
  preserves_snapshots (machine_delay_until fuel interval deadline).
Proof.
  induction fuel as [|fuel IH]; cbn [machine_delay_until].
  - intros m a m' H. discriminate.
  - unfold mach_absolute_time. frame.
Qed.

(** The snapshots [rtc_nanotime_init] leaves. *)
Lemma rtc_nanotime_init_snapshots (base : Z) (m : machine) :
  exists m',
    rtc_nanotime_init base m = Done tt m' /\
    acpi_snapshots m' =
      (tsc_base (pal_rtc_nanotime_info m), ns_base (pal_rtc_nanotime_info m),
       u64 (tsc_at_read (tsc_reads m)), base).
Proof. eexists. split; reflexivity. Qed.

(** C8, as the code has it.  The four snapshots are written by
    [rtc_nanotime_init] alone, and that routine is reached from the
    sleep/wake path ([rtc_sleep_wakeup]) and from the calibration path
    ([rtc_set_timescale], hence [rtclock_early_init]) alike: each of them
    leaves the old bases in the sleep pair and the new bases in the wake
    pair.  Every other routine of the file leaves the four snapshots as
    they were. *)
Theorem acpi_snapshots_written_by_init_only :
  (forall base m, exists m',
      rtc_nanotime_init base m = Done tt m' /\
      acpi_snapshots m' =
        (tsc_base (pal_rtc_nanotime_info m), ns_base (pal_rtc_nanotime_info m),
         u64 (tsc_at_read (tsc_reads m)), base)) /\
  (forall base m, exists m',
      rtc_sleep_wakeup base m = Done tt m' /\
      acpi_snapshots m' =
        (tsc_base (pal_rtc_nanotime_info m), ns_base (pal_rtc_nanotime_info m),
         u64 (tsc_at_read (tsc_reads m)), base)) /\
  (forall fuel cycles m m',
      rtc_set_timescale fuel cycles m = Done tt m' ->
      acpi_snapshots m' =
        (tsc_base (pal_rtc_nanotime_info m), ns_base (pal_rtc_nanotime_info m),
         tsc_base (pal_rtc_nanotime_info m'), 0)) /\
  (forall fuel m m',
      rtclock_early_init fuel m = Done tt m' ->
      acpi_snapshots m' =
        (tsc_base (pal_rtc_nanotime_info m), ns_base (pal_rtc_nanotime_info m),
         tsc_base (pal_rtc_nanotime_info m'), 0)) /\
  preserves_snapshots rtc_timer_start /\
  preserves_snapshots rtc_nanotime_init_commpage /\
  preserves_snapshots rtc_nanotime_read /\
  (forall base new_tsc_base,
      preserves_snapshots (rtc_clock_napped base new_tsc_base)) /\
  (forall delta, preserves_snapshots (rtc_clock_adjust delta)) /\
  preserves_snapshots rtc_decrementer_configure /\
  (forall cyc_per_sec, preserves_snapshots (rtc_export_speed cyc_per_sec)) /\
  preserves_snapshots rtclock_init /\
  preserves_snapshots clock_get_system_microtime /\
  preserves_snapshots clock_get_system_nanotime /\
  (forall abstime sec frac sc tick_per_sec,
      preserves_snapshots
        (clock_gettimeofday_set_commpage abstime sec frac sc tick_per_sec)) /\
  (forall tregs, preserves_snapshots (rtclock_intr tregs)) /\
  (forall time, preserves_snapshots (setPop time)) /\
  preserves_snapshots mach_absolute_time /\
  preserves_snapshots mach_approximate_time /\
  (forall fuel interval deadline,
      preserves_snapshots (machine_delay_until fuel interval deadline)).
Proof.
  assert (Hcal : forall fuel cycles m m',
    rtc_set_timescale fuel cycles m = Done tt m' ->
    acpi_snapshots m' =
      (tsc_base (pal_rtc_nanotime_info m), ns_base (pal_rtc_nanotime_info m),
       tsc_base (pal_rtc_nanotime_info m'), 0)).
  { intros fuel cycles m m' Hrun.
    destruct (slow_tsc_loop fuel cycles 0) as [[eff sh]|] eqn:Hloop.
    - destruct (rtc_set_timescale_done fuel cycles eff sh m Hloop)
        as (m2 & Hrun2 & _ & _ & _ & H1 & H2 & H3 & H4).
      rewrite Hrun in Hrun2. inversion Hrun2. subst m2.
      unfold acpi_snapshots. rewrite H1, H2, H3, H4. reflexivity.
    - unfold rtc_set_timescale in Hrun. rewrite Hloop in Hrun. discriminate. }
  split; [|split; [|split; [|split]]].
  - exact rtc_nanotime_init_snapshots.
  - intros base m. eexists. split; reflexivity.
  - exact Hcal.
  - intros fuel m m' Hrun. unfold rtclock_early_init, bind, gets, assert in Hrun.
    destruct (negb (tscFreq m =? 0)); [|discriminate].
    exact (Hcal _ _ _ _ Hrun).
  - repeat split; intros;
      try (unfold rtc_nanotime_init_commpage, rtc_decrementer_configure,
             clock_gettimeofday_set_commpage, mach_absolute_time,
             mach_approximate_time);
      auto using preserves_rtc_clock_napped, preserves_rtc_clock_adjust,
        preserves_rtclock_init, preserves_rtclock_intr, preserves_setPop,
        preserves_clock_get_system_microtime,
        preserves_clock_get_system_nanotime, preserves_machine_delay_until
        with snapshots.
Qed.

End Snapshots.

(** ** The timer-pop request and the conversions *)

Section Deadline.

Context {P : Platform}.

(** C6, as the code has it.  For every target time other than zero and
    the sentinel, [setPop] returns: it reads the nanotime [now], asks the
    timer to arm for the target given [now], records the target as
    [rtcDeadline] and the time the timer reports as [rtcPop], and returns
    the 64-bit difference between that reported time and [now]. *)
Theorem setPop_returns_pop_minus_now (time : Z) (m : machine) :
  time <> 0 ->
  time <> EndOfAllTime ->
  let now := nanotime_at (u64 (tsc_at_read (tsc_reads m)))
                         (pal_rtc_nanotime_info m) in
  let pop := rtc_set time now in
  exists m',
    setPop time m = Done (u64 (pop - now)) m' /\
    rtcDeadline m' = time /\
    rtcPop m' = pop /\
    trace m' = trace m ++ [rtc_set_request time now] /\
    pal_rtc_nanotime_info m' = pal_rtc_nanotime_info m.
Proof.
  intros Hnz Hns. cbv zeta. unfold setPop.
  destruct (Z.eqb_spec time 0) as [E|_]; [contradiction|].
  destruct (Z.eqb_spec time EndOfAllTime) as [E|_]; [contradiction|].
  cbn [orb]. eexists. split; [reflexivity|]. repeat split.
Qed.

(** The clearing requests: zero and the sentinel record the sentinel and
    ask the timer for [rtc_set(0, 0)]. *)
Lemma setPop_clears (time : Z) (m : machine) :
  time = 0 \/ time = EndOfAllTime ->
  exists m',
    setPop time m = Done (u64 (rtc_set 0 0 - 0)) m' /\
    rtcDeadline m' = EndOfAllTime /\
    rtcPop m' = rtc_set 0 0 /\
    trace m' = trace m ++ [rtc_set_request 0 0].
Proof.
  intros Hclear. unfold setPop.
  assert (E : (time =? 0) || (time =? EndOfAllTime) = true).
  { destruct Hclear as [-> | ->].
    - reflexivity.
    - rewrite Z.eqb_refl. apply orb_true_r. }
  rewrite E. eexists. split; [reflexivity|]. repeat split.
Qed.

End Deadline.

(** C10. [absolutetime_to_nanoseconds] and [nanoseconds_to_absolutetime]
    return their argument, so either composition does too, and
    [clock_timebase_info] reports numerator and denominator 1. *)
Theorem absolutetime_is_nanoseconds (x : Z) (info : mach_timebase_info) :
  absolutetime_to_nanoseconds x = x /\
  nanoseconds_to_absolutetime x = x /\
  nanoseconds_to_absolutetime (absolutetime_to_nanoseconds x) = x /\
  absolutetime_to_nanoseconds (nanoseconds_to_absolutetime x) = x /\
  numer (clock_timebase_info info) = 1 /\
  denom (clock_timebase_info info) = 1.
Proof. repeat split. Qed.

(** ** The routines on the concrete platform *)

(** On the concrete platform the converter reads only scale and shift. *)
Lemma sample_converter_reads_scale_shift :
  @converter_reads_scale_shift sample_platform.
Proof.
  intros d t1 t2 Hsc Hsh. cbn. rewrite Hsc, Hsh. reflexivity.
Qed.

Lemma sample_threshold_bounds :
  NSEC_PER_SEC <= @SLOW_TSC_THRESHOLD sample_platform < 2 ^ 63.
Proof. vm_compute. split; [discriminate | reflexivity]. Qed.

(** An idle exit that proposes a later nanotime (501 against 500) is
    adopted and published. *)
Lemma rtc_clock_napped_adopts_iff_later_witness :
  @converter_reads_scale_shift sample_platform /\
  interrupts_enabled running_machine = false /\
  exists m',
    @rtc_clock_napped sample_platform 501 1000 running_machine = Done tt m' /\
    pal_rtc_nanotime_info m' = mk_nanotime 1000 501 2147483648 0 /\
    trace m' = [commpage_set_nanotime 1000 501 2147483648 0].
Proof.
  split; [exact sample_converter_reads_scale_shift|].
  split; [reflexivity|].
  destruct (@rtc_clock_napped_adopts_iff_later sample_platform 501 1000
              running_machine sample_converter_reads_scale_shift eq_refl)
    as (m' & Hrun & Hadopt & _ & _).
  exists m'. split; [exact Hrun|].
  rewrite Hadopt by (vm_compute; reflexivity).
  split; reflexivity.
Defined.

(** A frequency of 500 Hz is calibrated with a scale of 32 bits. *)
Lemma rtc_set_timescale_scale_fits_witness :
  NSEC_PER_SEC <= @SLOW_TSC_THRESHOLD sample_platform < 2 ^ 63 /\
  1 <= 500 < 2 ^ 64 /\
  (64 <= 64)%nat /\
  exists eff sh m',
    @slow_tsc_loop sample_platform 64 500 0 = Some (eff, sh) /\
    @SLOW_TSC_THRESHOLD sample_platform < eff < 2 ^ 64 /\
    0 <= scale_quotient eff < 2 ^ 32 /\
    u32 (scale_quotient eff) = scale_quotient eff /\
    @rtc_set_timescale sample_platform 64 500 boot_machine = Done tt m' /\
    scale (pal_rtc_nanotime_info m') = scale_quotient eff /\
    shift (pal_rtc_nanotime_info m') = sh.
Proof.
  assert (Hc : 1 <= 500 < 2 ^ 64) by lia.
  split; [exact sample_threshold_bounds|].
  split; [exact Hc|].
  split; [apply le_n|].
  exact (@rtc_set_timescale_scale_fits sample_platform 64 500 boot_machine
           sample_threshold_bounds Hc (le_n 64)).
Defined.

(** The threshold itself, 1000000067 here, gets a positive shift and an
    uncut scale. *)
Lemma rtc_set_timescale_shift_by_threshold_witness :
  NSEC_PER_SEC <= @SLOW_TSC_THRESHOLD sample_platform < 2 ^ 63 /\
  1 <= 1000000067 < 2 ^ 64 /\
  (64 <= 64)%nat /\
  exists m',
    @rtc_set_timescale sample_platform 64 1000000067 boot_machine = Done tt m' /\
    (1000000067 <= @SLOW_TSC_THRESHOLD sample_platform ->
       0 < shift (pal_rtc_nanotime_info m')) /\
    (@SLOW_TSC_THRESHOLD sample_platform < 1000000067 ->
       shift (pal_rtc_nanotime_info m') = 0) /\
    1000000067 * 2 ^ shift (pal_rtc_nanotime_info m') < 2 ^ 64 /\
    scale (pal_rtc_nanotime_info m')
      = scale_quotient (1000000067 * 2 ^ shift (pal_rtc_nanotime_info m')) /\
    0 <= scale_quotient (1000000067 * 2 ^ shift (pal_rtc_nanotime_info m'))
      < 2 ^ 32.
Proof.
  assert (Hc : 1 <= 1000000067 < 2 ^ 64) by lia.
  split; [exact sample_threshold_bounds|].
  split; [exact Hc|].
  split; [apply le_n|].
  exact (@rtc_set_timescale_shift_by_threshold sample_platform 64 1000000067
           boot_machine sample_threshold_bounds Hc (le_n 64)).
Defined.

(** C2 fails at the threshold itself: a frequency equal to the threshold is
    "at or above" it, yet the calibrator gives it shift 1, not 0. *)
Lemma threshold_frequency_gets_nonzero_shift :
  let freq := @SLOW_TSC_THRESHOLD sample_platform in
  calibration (@rtc_set_timescale sample_platform 64 freq boot_machine)
    = Some (2147483504, 1) /\
  ~ (exists sc,
        calibration (@rtc_set_timescale sample_platform 64 freq boot_machine)
          = Some (sc, 0)).
Proof.
  cbv zeta. split.
  - vm_compute. reflexivity.
  - intros [sc H]. vm_compute in H. discriminate H.
Qed.

(** A zero [tscFreq] stops the boot at the assertion. *)
Lemma zero_frequency_never_calibrated_witness :
  0 <= @SLOW_TSC_THRESHOLD sample_platform /\
  tscFreq unmeasured_machine = 0 /\
  @rtclock_early_init sample_platform 64 unmeasured_machine
    = Panic assert_tscFreq /\
  @rtc_set_timescale sample_platform 64 0 unmeasured_machine = Spin.
Proof.
  assert (HT : 0 <= @SLOW_TSC_THRESHOLD sample_platform)
    by (vm_compute; discriminate).
  destruct (@zero_frequency_never_calibrated sample_platform 64
              unmeasured_machine HT) as (Hpanic & _ & Hspin & _).
  split; [exact HT|].
  split; [reflexivity|].
  split; [exact (Hpanic eq_refl) | exact Hspin].
Defined.

(** A nudge of 99 goes through, a nudge of 100 stops at the assertion. *)
Lemma rtc_clock_adjust_bound_witness :
  interrupts_enabled running_machine = false /\
  (0 <= 99 < 100 /\
   @rtc_clock_adjust sample_platform 99 running_machine =
     Done tt (set_trace [commpage_set_nanotime 299 100 2147483648 0]
                (set_nanotime_info (mk_nanotime 299 100 2147483648 0)
                   running_machine))) /\
  (100 <= 100 /\
   @rtc_clock_adjust sample_platform 100 running_machine =
     Panic assert_tsc_base_delta_small).
Proof.
  assert (Hsmall : 0 <= 99 < 100) by lia.
  assert (Hbig : 100 <= 100) by lia.
  split; [reflexivity|]. split.
  - split; [exact Hsmall|].
    exact (proj2 (proj2 (@rtc_clock_adjust_bound sample_platform 99
                           running_machine)) Hsmall eq_refl).
  - split; [exact Hbig|].
    exact (proj1 (proj2 (@rtc_clock_adjust_bound sample_platform 100
                           running_machine)) Hbig eq_refl).
Defined.

(** C5 fails on the order and on the last step: the code configures the
    timer before it touches the tuple, and it neither resets the recorded
    deadline (still 5, not the sentinel) nor asks for a resynchronisation
    of deadlines, with or without [__DARLING__]. *)
Lemma rtc_sleep_wakeup_is_not_the_spec_sequence :
  @rtc_sleep_wakeup sample_platform 7 running_machine
    <> @spec_on_sleep_wakeup sample_platform 7 running_machine /\
  @rtc_sleep_wakeup sample_platform_darling 7 running_machine
    <> @spec_on_sleep_wakeup sample_platform_darling 7 running_machine /\
  exists m',
    @rtc_sleep_wakeup sample_platform 7 running_machine = Done tt m' /\
    trace m' = [rtc_config; commpage_set_nanotime 1000 7 2147483648 0] /\
    ~ In timer_resync_deadlines (trace m') /\
    rtcDeadline m' = 5 /\
    rtcDeadline m' <> @EndOfAllTime sample_platform.
Proof.
  split; [|split].
  - intros H. vm_compute in H. discriminate H.
  - intros H. vm_compute in H. discriminate H.
  - eexists. split; [reflexivity|]. split; [reflexivity|].
    split; [|split].
    + cbn. intros [H|[H|[]]]; discriminate H.
    + reflexivity.
    + vm_compute. discriminate.
Qed.

(** A request for 2000 at nanotime 500 on a timer that arms for 2003. *)
Lemma setPop_returns_pop_minus_now_witness :
  2000 <> 0 /\
  2000 <> @EndOfAllTime sample_platform /\
  exists m',
    @setPop sample_platform 2000 running_machine = Done 1503 m' /\
    rtcDeadline m' = 2000 /\
    rtcPop m' = 2003 /\
    trace m' = [rtc_set_request 2000 500] /\
    pal_rtc_nanotime_info m' = pal_rtc_nanotime_info running_machine.
Proof.
  assert (Hnz : 2000 <> 0) by discriminate.
  assert (Hns : 2000 <> @EndOfAllTime sample_platform)
    by (vm_compute; discriminate).
  split; [exact Hnz|]. split; [exact Hns|].
  exact (@setPop_returns_pop_minus_now sample_platform 2000 running_machine
           Hnz Hns).
Defined.

(** C6 fails on the returned value: requested 2000, achieved 2003, and
    [setPop] returns 1503, the distance from now (500) to the achieved
    time, not the difference of 3 between request and achievement in
    either sign. *)
Lemma setPop_does_not_return_request_slippage :
  exists m',
    @setPop sample_platform 2000 running_machine = Done 1503 m' /\
    rtcDeadline m' = 2000 /\
    rtcPop m' = 2003 /\
    ~ spec_request_delta (rtcDeadline m') (rtcPop m') 1503.
Proof.
  eexists. split; [reflexivity|]. split; [reflexivity|].
  split; [reflexivity|].
  intros [H|H]; vm_compute in H; discriminate H.
Qed.

(** C8 fails on the calibration path: [rtclock_early_init] is not the
    sleep/wake path, and it changes the wake snapshot, with or without
    [__DARLING__]. *)
Lemma calibration_writes_the_snapshots :
  (exists m',
     @rtclock_early_init sample_platform 64 boot_machine = Done tt m' /\
     acpi_snapshots boot_machine = (0, 0, 0, 0) /\
     acpi_snapshots m' = (0, 0, 1010, 0)) /\
  ~ @preserves_snapshots unit (@rtclock_early_init sample_platform 64) /\
  ~ @preserves_snapshots unit (@rtclock_early_init sample_platform_darling 64).
Proof.
  split; [|split].
  - eexists. split; [reflexivity|]. split; reflexivity.
  - intros H. specialize (H boot_machine tt _ eq_refl).
    vm_compute in H. discriminate H.
  - intros H. specialize (H boot_machine tt _ eq_refl).
    vm_compute in H. discriminate H.
Qed.

(** * Further properties of the routines *)

(** ** Splitting and joining absolute time *)

Section Conversions.

Context {P : Platform}.

(** X1. [_absolutetime_to_microtime] splits an absolute time into whole
    seconds and a remainder below one second that the 32-bit cast keeps
    intact, and the microseconds are that remainder divided by
    [NSEC_PER_USEC] rounded down; [absolutetime_to_microtime] hands out the
    seconds and microseconds of the same split. *)
Theorem absolutetime_to_microtime_decomposes (abstime : Z) :
  0 < NSEC_PER_USEC ->
  let '(remain, secs, microsecs) := _absolutetime_to_microtime abstime in
  abstime = secs * NSEC_PER_SEC + remain /\
  0 <= remain < NSEC_PER_SEC /\
  microsecs * NSEC_PER_USEC <= remain < (microsecs + 1) * NSEC_PER_USEC /\
  absolutetime_to_microtime abstime = (secs, microsecs).
Proof.
  intros Husec. unfold absolutetime_to_microtime, _absolutetime_to_microtime.
  assert (Hrem : 0 <= abstime mod NSEC_PER_SEC < NSEC_PER_SEC)
    by (apply Z.mod_pos_bound; reflexivity).
  rewrite (u32_small (abstime mod NSEC_PER_SEC))
    by (unfold NSEC_PER_SEC in *; lia).
  split; [|split; [exact Hrem|split; [|reflexivity]]].
  - rewrite Z.mul_comm. apply Z.div_mod. discriminate.
  - set (r := abstime mod NSEC_PER_SEC).
    assert (Hnz : NSEC_PER_USEC <> 0) by (intros E; rewrite E in Husec; discriminate).
    pose proof (Z.div_mod r NSEC_PER_USEC Hnz) as Hdm.
    pose proof (Z.mod_pos_bound r NSEC_PER_USEC Husec) as Hmb.
    split; lia.
Qed.

End Conversions.

(** X2. Splitting a 64-bit absolute time into seconds and nanoseconds and
    joining them again gives the time back, and the nanoseconds stay
    below one second. *)
Theorem nanotime_split_then_join (abstime : Z) :
  0 <= abstime < 2 ^ 64 ->
  let '(secs, nanosecs) := _absolutetime_to_nanotime abstime in
  nanotime_to_absolutetime secs nanosecs = abstime /\
  0 <= nanosecs < NSEC_PER_SEC /\
  0 <= secs.
Proof.
  intros Hrange. unfold _absolutetime_to_nanotime, nanotime_to_absolutetime.
  unfold NSEC_PER_SEC.
  assert (Hrem : 0 <= abstime mod 1000000000 < 1000000000)
    by (apply Z.mod_pos_bound; reflexivity).
  assert (Hdm : abstime = 1000000000 * (abstime / 1000000000)
                          + abstime mod 1000000000)
    by (apply Z.div_mod; discriminate).
  assert (Hq : 0 <= abstime / 1000000000)
    by (apply Z.div_pos; [lia | reflexivity]).
  rewrite (u32_small (abstime mod 1000000000)) by lia.
  split; [|split; [exact Hrem | exact Hq]].
  rewrite (u64_small (abstime / 1000000000 * 1000000000)) by lia.
  rewrite u64_small by lia. lia.
Qed.

(** X3. Joining seconds and nanoseconds that are below one second and
    whose sum fits in 64 bits, then splitting the result, gives the same
    seconds and nanoseconds back. *)
Theorem nanotime_join_then_split (secs nanosecs : Z) :
  0 <= secs ->
  0 <= nanosecs < NSEC_PER_SEC ->
  secs * NSEC_PER_SEC + nanosecs < 2 ^ 64 ->
  _absolutetime_to_nanotime (nanotime_to_absolutetime secs nanosecs)
    = (secs, nanosecs).
Proof.
  intros Hs Hn Hfit. unfold _absolutetime_to_nanotime, nanotime_to_absolutetime.
  assert (Hprod : 0 <= secs * NSEC_PER_SEC) by (unfold NSEC_PER_SEC; lia).
  rewrite (u64_small (secs * NSEC_PER_SEC)) by lia.
  rewrite u64_small by lia.
  rewrite Z.add_comm, Z.div_add, Z.mod_add by discriminate.
  rewrite Z.div_small, Z.mod_small by exact Hn.
  rewrite u32_small by (unfold NSEC_PER_SEC in Hn; lia).
  reflexivity.
Qed.

(** X4. For a 32-bit count and a 32-bit unit scale the interval is their
    exact product: the 64-bit multiplication cannot wrap. *)
Theorem clock_interval_is_exact_product (interval scale_factor : Z) :
  0 <= interval < 2 ^ 32 ->
  0 <= scale_factor < 2 ^ 32 ->
  clock_interval_to_absolutetime_interval interval scale_factor
    = interval * scale_factor.
Proof.
  intros Hi Hs. unfold clock_interval_to_absolutetime_interval.
  apply u64_small.
  change (2 ^ 32) with 4294967296 in *.
  change (2 ^ 64) with (4294967296 * 4294967296).
  split; [apply Z.mul_nonneg_nonneg; lia|].
  apply Z.mul_lt_mono_nonneg; lia.
Qed.

(** ** The exported processor speed *)

Section ExportSpeed.

Context {P : Platform}.

(** The rounding of [rtc_export_speed] when the addition does not wrap. *)
Lemma export_rounding_exact (c : Z) :
  0 <= c -> c + 5000000 < 2 ^ 64 ->
  u64 (u64 (c + UI_CPUFREQ_ROUNDING_FACTOR / 2)
       / UI_CPUFREQ_ROUNDING_FACTOR * UI_CPUFREQ_ROUNDING_FACTOR)
  = (c + 5000000) / 10000000 * 10000000.
Proof.
  intros Hc Hfit. unfold UI_CPUFREQ_ROUNDING_FACTOR.
  change (10000000 / 2) with 5000000.
  rewrite (u64_small (c + 5000000)) by lia.
  apply u64_small.
  pose proof (Z.div_mod (c + 5000000) 10000000 ltac:(discriminate)) as Hdm.
  pose proof (Z.mod_pos_bound (c + 5000000) 10000000 eq_refl) as Hmb.
  assert (0 <= (c + 5000000) / 10000000) by (apply Z.div_pos; lia).
  lia.
Qed.

(** X5. For a frequency whose rounding addition does not wrap,
    [rtc_export_speed] returns and records as [cpu_frequency_hz] a multiple
    of 10,000,000 within 5,000,000 of the frequency (halves round up),
    records as [cpu_clock_rate_hz] that value capped at [0xFFFFFFFF], and
    leaves the minimum and maximum frequencies and the calibration tuple
    alone. *)
Theorem rtc_export_speed_rounds (cyc_per_sec : Z) (m : machine) :
  0 <= cyc_per_sec ->
  cyc_per_sec + 5000000 < 2 ^ 64 ->
  exists cycles m',
    rtc_export_speed cyc_per_sec m = Done cycles m' /\
    cycles mod 10000000 = 0 /\
    cyc_per_sec - 5000000 < cycles <= cyc_per_sec + 5000000 /\
    cpu_frequency_hz (gPEClockFrequencyInfo m') = cycles /\
    cpu_clock_rate_hz (gPEClockFrequencyInfo m') = Z.min cycles 4294967295 /\
    cpu_frequency_min_hz (gPEClockFrequencyInfo m')
      = cpu_frequency_min_hz (gPEClockFrequencyInfo m) /\
    cpu_frequency_max_hz (gPEClockFrequencyInfo m')
      = cpu_frequency_max_hz (gPEClockFrequencyInfo m) /\
    pal_rtc_nanotime_info m' = pal_rtc_nanotime_info m.
Proof.
  intros Hc Hfit.
  pose proof (export_rounding_exact cyc_per_sec Hc Hfit) as Hround.
  pose proof (Z.div_mod (cyc_per_sec + 5000000) 10000000 ltac:(discriminate))
    as Hdm.
  pose proof (Z.mod_pos_bound (cyc_per_sec + 5000000) 10000000 eq_refl) as Hmb.
  unfold rtc_export_speed, bind, gets, when, call, modify, ret.
  rewrite Hround.
  set (cycles := (cyc_per_sec + 5000000) / 10000000 * 10000000) in *.
  assert (Hcap : (if 4294967296 <=? cycles then 4294967295 else cycles)
                 = Z.min cycles 4294967295).
  { destruct (Z.leb_spec 4294967296 cycles); lia. }
  destruct (negb (shift (pal_rtc_nanotime_info m) =? 0));
    exists cycles; eexists; (split; [reflexivity|]); cbn;
    rewrite Hcap;
    (split; [apply Z.mod_mul; discriminate|]);
    (split; [lia|]); repeat split.
Qed.

(** X6. At the top of the 64-bit range the rounding addition wraps: for
    the last 5,000,000 frequencies below [2^64] the exported speed is 0. *)
Theorem rtc_export_speed_wraps_at_top (cyc_per_sec : Z) (m : machine) :
  2 ^ 64 - 5000000 <= cyc_per_sec < 2 ^ 64 ->
  exists m',
    rtc_export_speed cyc_per_sec m = Done 0 m' /\
    cpu_frequency_hz (gPEClockFrequencyInfo m') = 0 /\
    cpu_clock_rate_hz (gPEClockFrequencyInfo m') = 0.
Proof.
  intros Htop.
  assert (Hround :
    u64 (u64 (cyc_per_sec + UI_CPUFREQ_ROUNDING_FACTOR / 2)
         / UI_CPUFREQ_ROUNDING_FACTOR * UI_CPUFREQ_ROUNDING_FACTOR) = 0).
  { unfold UI_CPUFREQ_ROUNDING_FACTOR. change (10000000 / 2) with 5000000.
    assert (Hwrap : u64 (cyc_per_sec + 5000000)
                    = cyc_per_sec + 5000000 - 2 ^ 64).
    { unfold u64. symmetry.
      apply (Z.mod_unique _ _ 1); lia. }
    rewrite Hwrap, Z.div_small by lia. reflexivity. }
  unfold rtc_export_speed, bind, gets, when, call, modify, ret.
  rewrite Hround.
  destruct (negb (shift (pal_rtc_nanotime_info m) =? 0));
    eexists; (split; [reflexivity|]); split; reflexivity.
Qed.


End ExportSpeed.

(** ** More on the time base *)

Section TimeBaseMore.

Context {P : Platform}.

(** The nanotime of a tuple at its own cycle base is its time base, for a
    converter that turns no cycles into no time. *)
Lemma nanotime_at_own_base (t : pal_rtc_nanotime_t) :
  (forall t', _rtc_tsc_to_nanoseconds 0 t' = 0) ->
  0 <= ns_base t < 2 ^ 64 ->
  nanotime_at (tsc_base t) t = ns_base t.
Proof.
  intros Hzero Hrange. unfold nanotime_at.
  rewrite Z.sub_diag. change (u64 0) with 0.
  rewrite Hzero, Z.add_0_r. apply u64_small. exact Hrange.
Qed.

(** What [rtc_clock_napped] does with interrupts disabled, in the terms
    of its own two sums. *)
Lemma rtc_clock_napped_cases (base new_tsc_base : Z) (m : machine) :
  interrupts_enabled m = false ->
  let rntp := pal_rtc_nanotime_info m in
  let tsc := u64 (tsc_at_read (tsc_reads m)) in
  let m1 := set_tsc_reads (S (tsc_reads m)) m in
  let newnsecs :=
    u64 (base + _rtc_tsc_to_nanoseconds (u64 (tsc - new_tsc_base)) rntp) in
  rtc_clock_napped base new_tsc_base m =
    Done tt
      (if nanotime_at tsc rntp <? newnsecs
       then set_trace
              (trace m ++ [commpage_set_nanotime new_tsc_base base
                             (scale rntp) (shift rntp)])
              (set_nanotime_info
                 (mk_nanotime new_tsc_base base (scale rntp) (shift rntp)) m1)
       else m1).
Proof.
  intros Hints. cbv zeta.
  unfold rtc_clock_napped, bind, gets, assert, rdtsc64. rewrite Hints.
  cbn [negb pal_rtc_nanotime_info set_tsc_reads tsc_reads].
  fold (nanotime_at (u64 (tsc_at_read (tsc_reads m))) (pal_rtc_nanotime_info m)).
  destruct (nanotime_at _ _ <? _); reflexivity.
Qed.

(** X8. With interrupts disabled, the nanotime at the counter value that
    [rtc_clock_napped] read is, under the tuple it leaves, the larger of
    the nanotime under the old tuple and under the candidate: the call
    never moves the time at that instant backwards. *)
Theorem rtc_clock_napped_keeps_the_later_time
    (base new_tsc_base : Z) (m : machine) :
  converter_reads_scale_shift ->
  interrupts_enabled m = false ->
  let old := pal_rtc_nanotime_info m in
  let cand := napped_candidate base new_tsc_base old in
  let tsc := u64 (tsc_at_read (tsc_reads m)) in
  exists m',
    rtc_clock_napped base new_tsc_base m = Done tt m' /\
    nanotime_at tsc (pal_rtc_nanotime_info m')
      = Z.max (nanotime_at tsc old) (nanotime_at tsc cand) /\
    nanotime_at tsc old <= nanotime_at tsc (pal_rtc_nanotime_info m').
Proof.
  intros Hconv Hints. cbv zeta.
  rewrite (rtc_clock_napped_cases base new_tsc_base m Hints).
  assert (Hcand :
    nanotime_at (u64 (tsc_at_read (tsc_reads m)))
      (napped_candidate base new_tsc_base (pal_rtc_nanotime_info m))
    = u64 (base + _rtc_tsc_to_nanoseconds
                    (u64 (u64 (tsc_at_read (tsc_reads m)) - new_tsc_base))
                    (pal_rtc_nanotime_info m))).
  { unfold nanotime_at, napped_candidate. cbn [ns_base tsc_base].
    f_equal. f_equal. apply Hconv; reflexivity. }
  rewrite <- Hcand.
  set (old_ns := nanotime_at _ (pal_rtc_nanotime_info m)).
  set (new_ns := nanotime_at _ (napped_candidate _ _ _)).
  eexists. split; [reflexivity|].
  destruct (Z.ltb_spec old_ns new_ns) as [Hlt|Hge].
  - cbn [pal_rtc_nanotime_info set_trace set_nanotime_info].
    fold (napped_candidate base new_tsc_base (pal_rtc_nanotime_info m)).
    fold new_ns. split; lia.
  - cbn [pal_rtc_nanotime_info set_tsc_reads]. fold old_ns. split; lia.
Qed.

(** X9. The routines that assert disabled interrupts stop there when
    interrupts are enabled: [rtc_clock_napped] and [rtc_clock_adjust] at
    their first statement whatever their arguments, [rtclock_init] when
    the file is built without [__DARLING__], and [rtclock_intr] at one of
    its two assertions. *)
Theorem interrupts_enabled_stops_the_writers (m : machine) :
  interrupts_enabled m = true ->
  (forall base new_tsc_base,
      rtc_clock_napped base new_tsc_base m = Panic assert_interrupts_disabled) /\
  (forall delta,
      rtc_clock_adjust delta m = Panic assert_interrupts_disabled) /\
  (DARLING = false -> rtclock_init m = Panic assert_interrupts_disabled) /\
  (forall tregs,
      rtclock_intr tregs m =
        Panic (if 0 <? preemption_level m
               then assert_interrupts_disabled
               else assert_preemption_level)).
Proof.
  intros Hints. split; [|split; [|split]].
  - intros base new_tsc_base.
    unfold rtc_clock_napped, bind, gets, assert. rewrite Hints. reflexivity.
  - intros delta.
    unfold rtc_clock_adjust, bind, gets, assert. rewrite Hints. reflexivity.
  - intros HD. unfold rtclock_init, bind, gets, assert, when.
    rewrite HD. cbn [negb]. rewrite Hints. reflexivity.
  - intros tregs. unfold rtclock_intr, bind, gets, assert.
    destruct (0 <? preemption_level m); [rewrite Hints|]; reflexivity.
Qed.

(** X10. After [rtc_sleep_wakeup] the tuple's cycle base is the counter
    value the routine read, and the nanotime at that very counter value is
    the origin it was given, for a 64-bit origin and a converter that
    turns no cycles into no time. *)
Theorem rtc_sleep_wakeup_restarts_at_base (base : Z) (m : machine) :
  (forall t, _rtc_tsc_to_nanoseconds 0 t = 0) ->
  0 <= base < 2 ^ 64 ->
  exists m',
    rtc_sleep_wakeup base m = Done tt m' /\
    tsc_base (pal_rtc_nanotime_info m') = u64 (tsc_at_read (tsc_reads m)) /\
    nanotime_at (tsc_base (pal_rtc_nanotime_info m')) (pal_rtc_nanotime_info m')
      = base.
Proof.
  intros Hzero Hbase. eexists. split; [reflexivity|].
  split; [reflexivity|].
  cbn [pal_rtc_nanotime_info set_trace set_last_wake set_nanotime_info].
  rewrite (nanotime_at_own_base _ Hzero); [reflexivity | exact Hbase].
Qed.

(** X11. A clearing request, zero or [EndOfAllTime], reads no clock: it
    asks the timer for [rtc_set(0, 0)], records [EndOfAllTime] as the
    deadline and the timer's answer as the pop, returns that answer, and
    changes nothing else. *)
Theorem setPop_clear_request (time : Z) (m : machine) :
  time = 0 \/ time = EndOfAllTime ->
  setPop time m =
    Done (u64 (rtc_set 0 0))
      (set_rtcPop (rtc_set 0 0)
         (set_rtcDeadline EndOfAllTime
            (set_trace (trace m ++ [rtc_set_request 0 0]) m))).
Proof.
  intros Hclear. unfold setPop.
  assert (E : (time =? 0) || (time =? EndOfAllTime) = true).
  { destruct Hclear as [-> | ->].
    - reflexivity.
    - rewrite Z.eqb_refl. apply orb_true_r. }
  rewrite E. unfold bind, call, modify, ret. cbn.
  rewrite Z.sub_0_r. reflexivity.
Qed.

(** X12. With a positive preemption level and interrupts disabled,
    [rtclock_intr] forwards exactly one [timer_intr] with the trapped
    instruction pointer, in user mode exactly when the code segment
    selector's privilege level (its value modulo 4) is not zero, and
    changes nothing else; with a preemption level of zero or less it stops
    at the preemption assertion. *)
Theorem rtclock_intr_forwards (tregs : x86_saved_state_t) (m : machine) :
  let cs := match tregs with
            | saved_state64 cs _ => cs
            | saved_state32 cs _ => cs
            end in
  let ip := match tregs with
            | saved_state64 _ rip => rip
            | saved_state32 _ eip => eip
            end in
  (0 < preemption_level m -> interrupts_enabled m = false ->
     rtclock_intr tregs m =
       Done tt (set_trace
                  (trace m ++ [timer_intr (negb (cs mod 4 =? 0)) ip]) m)) /\
  (preemption_level m <= 0 ->
     rtclock_intr tregs m = Panic assert_preemption_level).
Proof.
  cbv zeta. unfold rtclock_intr, bind, gets, assert, call, modify.
  split.
  - intros Hlvl Hints.
    destruct (Z.ltb_spec 0 (preemption_level m)); [|lia].
    rewrite Hints. cbn [negb].
    destruct tregs as [cs rip|cs eip];
      change 3 with (Z.ones 2); rewrite Z.land_ones by lia; reflexivity.
  - intros Hlvl.
    destruct (Z.ltb_spec 0 (preemption_level m)); [lia|]. reflexivity.
Qed.

End TimeBaseMore.

(** ** More on the calibrator *)

Section CalibratorMore.

Context {P : Platform}.

(** The number of doublings is the least one that carries the rate over
    the threshold. *)
Lemma slow_tsc_loop_least (n : nat) :
  SLOW_TSC_THRESHOLD < 2 ^ 63 ->
  forall cycles shift,
    1 <= cycles < 2 ^ 64 ->
    0 <= shift -> shift + Z.of_nat n < 2 ^ 32 ->
    SLOW_TSC_THRESHOLD < cycles * 2 ^ Z.of_nat n ->
    exists k,
      0 <= k <= Z.of_nat n /\
      slow_tsc_loop (S n) cycles shift = Some (cycles * 2 ^ k, shift + k) /\
      SLOW_TSC_THRESHOLD < cycles * 2 ^ k < 2 ^ 64 /\
      (forall j, 0 <= j < k -> cycles * 2 ^ j <= SLOW_TSC_THRESHOLD).
Proof.
  intros HT. induction n as [|n IH]; intros cycles sh Hc Hs Hsn Hover.
  - exists 0. change (2 ^ Z.of_nat 0) with 1 in Hover.
    rewrite Z.mul_1_r in Hover. simpl.
    destruct (Z.leb_spec cycles SLOW_TSC_THRESHOLD) as [Hle|Hgt]; [lia|].
    rewrite Z.mul_1_r, Z.add_0_r. repeat split; try lia.
  - cbn [slow_tsc_loop].
    destruct (Z.leb_spec cycles SLOW_TSC_THRESHOLD) as [Hle|Hgt].
    + rewrite shiftl_1_double.
      rewrite (u64_small (2 * cycles)) by lia.
      rewrite (u32_small (sh + 1)) by lia.
      assert (Hover' : SLOW_TSC_THRESHOLD < 2 * cycles * 2 ^ Z.of_nat n).
      { rewrite Nat2Z.inj_succ, Z.pow_succ_r in Hover by lia.
        replace (2 * cycles * 2 ^ Z.of_nat n)
          with (cycles * (2 * 2 ^ Z.of_nat n)) by ring.
        exact Hover. }
      destruct (IH (2 * cycles) (sh + 1)) as (k & Hk & Hrun & Hbound & Hleast);
        try lia.
      exists (k + 1).
      assert (Hk1 : 2 ^ (k + 1) = 2 * 2 ^ k).
      { rewrite Z.pow_add_r by lia. lia. }
      rewrite Hk1.
      replace (cycles * (2 * 2 ^ k)) with (2 * cycles * 2 ^ k) by ring.
      replace (sh + (k + 1)) with (sh + 1 + k) by lia.
      split; [lia|]. split; [exact Hrun|]. split; [exact Hbound|].
      intros j Hj. destruct (Z.eq_dec j 0) as [->|Hnz].
      * rewrite Z.mul_1_r. exact Hle.
      * replace j with (j - 1 + 1) by lia.
        rewrite Z.pow_add_r by lia. change (2 ^ 1) with 2.
        replace (cycles * (2 ^ (j - 1) * 2)) with (2 * cycles * 2 ^ (j - 1))
          by ring.
        apply Hleast. lia.
    + exists 0. rewrite Z.mul_1_r, Z.add_0_r. repeat split; try lia.
Qed.

(** X13. For every non-zero 64-bit frequency the calibrator returns with a
    shift of at most 63 that is the least number of doublings carrying the
    frequency strictly over the threshold, none of them wrapping, and with
    the scale computed from the frequency doubled that many times. *)
Theorem rtc_set_timescale_least_shift (fuel : nat) (cycles : Z) (m : machine) :
  0 <= SLOW_TSC_THRESHOLD < 2 ^ 63 ->
  1 <= cycles < 2 ^ 64 ->
  (64 <= fuel)%nat ->
  exists m' sh,
    rtc_set_timescale fuel cycles m = Done tt m' /\
    shift (pal_rtc_nanotime_info m') = sh /\
    0 <= sh <= 63 /\
    SLOW_TSC_THRESHOLD < cycles * 2 ^ sh < 2 ^ 64 /\
    (forall j, 0 <= j < sh -> cycles * 2 ^ j <= SLOW_TSC_THRESHOLD) /\
    scale (pal_rtc_nanotime_info m') = u32 (scale_quotient (cycles * 2 ^ sh)).
Proof.
  intros HT Hc Hfuel.
  assert (Hover : SLOW_TSC_THRESHOLD < cycles * 2 ^ Z.of_nat 63).
  { change (2 ^ Z.of_nat 63) with 9223372036854775808.
    change (2 ^ 63) with 9223372036854775808 in HT. lia. }
  assert (Hroom : 0 + Z.of_nat 63 < 2 ^ 32) by (vm_compute; reflexivity).
  destruct (slow_tsc_loop_least 63 (proj2 HT) cycles 0 Hc (Z.le_refl 0)
              Hroom Hover)
    as (k & Hk & Hrun & Hbound & Hleast).
  change (Z.of_nat 63) with 63 in Hk. rewrite Z.add_0_l in Hrun.
  apply (slow_tsc_loop_more_fuel 64) with (fuel' := fuel) in Hrun;
    [|exact Hfuel].
  destruct (rtc_set_timescale_done fuel cycles _ _ m Hrun)
    as (m' & Hdone & Hscale & Hshift & _).
  exists m', k.
  split; [exact Hdone|]. split; [exact Hshift|]. split; [exact Hk|].
  split; [exact Hbound|]. split; [exact Hleast | exact Hscale].
Qed.

(** The rebase time and the counter reads a calibration leaves, once the
    shift search has returned. *)
Lemma rtc_set_timescale_rebase (fuel : nat) (cycles eff sh : Z) (m : machine) :
  slow_tsc_loop fuel cycles 0 = Some (eff, sh) ->
  exists m',
    rtc_set_timescale fuel cycles m = Done tt m' /\
    (tsc_rebase_abs_time m <> 0 ->
       tsc_rebase_abs_time m' = tsc_rebase_abs_time m /\
       tsc_reads m' = S (tsc_reads m)) /\
    (tsc_rebase_abs_time m = 0 ->
       tsc_rebase_abs_time m' =
         u64 (_rtc_tsc_to_nanoseconds
                (u64 (u64 (tsc_at_read (tsc_reads m)) - tsc_at_boot m))
                (mk_nanotime (tsc_base (pal_rtc_nanotime_info m))
                             (ns_base (pal_rtc_nanotime_info m))
                             (scale (pal_rtc_nanotime_info m'))
                             (shift (pal_rtc_nanotime_info m')))) /\
       tsc_reads m' = S (S (tsc_reads m))).
Proof.
  intros Hloop. unfold rtc_set_timescale. rewrite Hloop.
  unfold bind, modify, gets, when. cbn [tsc_rebase_abs_time set_nanotime_info].
  destruct (Z.eqb_spec (tsc_rebase_abs_time m) 0) as [Hz|Hnz];
    eexists; (split; [reflexivity|]); split; intros H; try contradiction;
    split; reflexivity.
Qed.

(** X14. What one calibration does to [tsc_rebase_abs_time] is decided
    by the test [tsc_rebase_abs_time == 0] alone: a calibration that finds
    it non-zero leaves it as it is and reads the counter once; one that
    finds it zero reads the counter twice and assigns it the conversion,
    under the scale and shift just computed, of the cycles since
    [tsc_at_boot], which may itself be zero: the variable is guarded by
    its value, not by a count of writes. *)
Theorem rtc_set_timescale_rebases_only_from_zero
    (fuel : nat) (cycles : Z) (m m' : machine) :
  rtc_set_timescale fuel cycles m = Done tt m' ->
  (tsc_rebase_abs_time m <> 0 ->
     tsc_rebase_abs_time m' = tsc_rebase_abs_time m /\
     tsc_reads m' = S (tsc_reads m)) /\
  (tsc_rebase_abs_time m = 0 ->
     tsc_rebase_abs_time m' =
       u64 (_rtc_tsc_to_nanoseconds
              (u64 (u64 (tsc_at_read (tsc_reads m)) - tsc_at_boot m))
              (mk_nanotime (tsc_base (pal_rtc_nanotime_info m))
                           (ns_base (pal_rtc_nanotime_info m))
                           (scale (pal_rtc_nanotime_info m'))
                           (shift (pal_rtc_nanotime_info m')))) /\
     tsc_reads m' = S (S (tsc_reads m))).
Proof.
  intros Hrun.
  destruct (slow_tsc_loop fuel cycles 0) as [[eff sh]|] eqn:Hloop.
  - destruct (rtc_set_timescale_rebase fuel cycles eff sh m Hloop)
      as (m2 & Hrun2 & Hrest).
    assert (E : Done tt m' = Done tt m2)
      by (rewrite <- Hrun, <- Hrun2; reflexivity).
    injection E as ->. exact Hrest.
  - unfold rtc_set_timescale in Hrun. rewrite Hloop in Hrun. discriminate.
Qed.

(** X15. [rtclock_early_init] establishes the time and sets it to zero:
    for a non-zero 64-bit [tscFreq] it returns with a time base of zero, so
    that the nanotime at the tuple's own cycle base is zero, for a
    converter that turns no cycles into no time. *)
Theorem rtclock_early_init_starts_time_at_zero (fuel : nat) (m : machine) :
  0 <= SLOW_TSC_THRESHOLD < 2 ^ 63 ->
  1 <= tscFreq m < 2 ^ 64 ->
  (64 <= fuel)%nat ->
  (forall t, _rtc_tsc_to_nanoseconds 0 t = 0) ->
  exists m',
    rtclock_early_init fuel m = Done tt m' /\
    ns_base (pal_rtc_nanotime_info m') = 0 /\
    nanotime_at (tsc_base (pal_rtc_nanotime_info m')) (pal_rtc_nanotime_info m')
      = 0.
Proof.
  intros HT Hfreq Hfuel Hzero.
  destruct (slow_tsc_loop_terminates fuel (tscFreq m) HT Hfreq Hfuel)
    as (k & _ & Hloop & _).
  destruct (rtc_set_timescale_done fuel (tscFreq m) _ _ m Hloop)
    as (m' & Hrun & _ & _ & Hns & _).
  exists m'. split; [|split; [exact Hns|]].
  - unfold rtclock_early_init, bind, gets, assert.
    destruct (Z.eqb_spec (tscFreq m) 0) as [E|_]; [lia|]. exact Hrun.
  - rewrite (nanotime_at_own_base _ Hzero); rewrite Hns; [reflexivity|].
    split; [lia | reflexivity].
Qed.

End CalibratorMore.

(** ** Waiting for a deadline *)

Section Delay.

Context {P : Platform}.

(** One round of the busy wait. *)
Lemma machine_delay_until_step
    (fuel : nat) (interval deadline : Z) (m : machine) :
  machine_delay_until (S fuel) interval deadline m =
    if reading (pal_rtc_nanotime_info m) (tsc_reads m) <? deadline
    then machine_delay_until fuel interval deadline
           (set_trace (trace m ++ [cpu_pause])
              (set_tsc_reads (S (tsc_reads m)) m))
    else Done tt (set_tsc_reads (S (tsc_reads m)) m).
Proof.
  cbn [machine_delay_until].
  unfold mach_absolute_time, rtc_nanotime_read, _rtc_nanotime_read, rdtsc64,
    bind, gets, ret, reading.
  cbn [pal_rtc_nanotime_info set_tsc_reads].
  destruct (nanotime_at _ _ <? deadline); reflexivity.
Qed.

(** X16. If the first [n] readings of the clock are before the deadline
    and the next one is not, [machine_delay_until] with more than [n]
    rounds of fuel returns after exactly [n] pauses and [n + 1] clock
    reads, whatever the interval argument, and changes nothing else; in
    particular a deadline already reached costs one read and no pause. *)
Theorem machine_delay_until_returns
    (n fuel : nat) (interval deadline : Z) (m : machine) :
  (n < fuel)%nat ->
  (forall i, (i < n)%nat ->
     reading (pal_rtc_nanotime_info m) (i + tsc_reads m) < deadline) ->
  deadline <= reading (pal_rtc_nanotime_info m) (n + tsc_reads m) ->
  machine_delay_until fuel interval deadline m =
    Done tt (set_trace (trace m ++ repeat cpu_pause n)
               (set_tsc_reads (S (n + tsc_reads m)) m)).
Proof.
  revert fuel m. induction n as [|n IH]; intros fuel m Hfuel Hbefore Hreached.
  - destruct fuel as [|fuel]; [lia|].
    rewrite machine_delay_until_step.
    cbn [Nat.add] in Hreached.
    destruct (Z.ltb_spec (reading (pal_rtc_nanotime_info m) (tsc_reads m))
                deadline) as [Hlt|_]; [lia|].
    cbn [repeat Nat.add]. rewrite app_nil_r.
    destruct m; reflexivity.
  - destruct fuel as [|fuel]; [lia|].
    rewrite machine_delay_until_step.
    pose proof (Hbefore O ltac:(lia)) as Hfirst. cbn [Nat.add] in Hfirst.
    destruct (Z.ltb_spec (reading (pal_rtc_nanotime_info m) (tsc_reads m))
                deadline) as [_|Hge]; [|lia].
    rewrite IH.
    + cbn [trace tsc_reads set_trace set_tsc_reads repeat].
      rewrite <- app_assoc, Nat.add_succ_r. reflexivity.
    + lia.
    + intros i Hi. cbn [pal_rtc_nanotime_info tsc_reads set_trace set_tsc_reads].
      rewrite Nat.add_succ_r. apply (Hbefore (S i)). lia.
    + cbn [pal_rtc_nanotime_info tsc_reads set_trace set_tsc_reads].
      rewrite Nat.add_succ_r. exact Hreached.
Qed.

(** X17. If every reading of the clock from now on is before the deadline,
    [machine_delay_until] is still spinning whatever the fuel: the wait
    has no way out but the clock. *)
Theorem machine_delay_until_spins
    (fuel : nat) (interval deadline : Z) (m : machine) :
  (forall k, (tsc_reads m <= k)%nat ->
     reading (pal_rtc_nanotime_info m) k < deadline) ->
  machine_delay_until fuel interval deadline m = Spin.
Proof.
  revert m. induction fuel as [|fuel IH]; intros m Hnever.
  - reflexivity.
  - rewrite machine_delay_until_step.
    pose proof (Hnever (tsc_reads m) (le_n _)) as Hnow.
    destruct (Z.ltb_spec (reading (pal_rtc_nanotime_info m) (tsc_reads m))
                deadline) as [_|Hge]; [|lia].
    apply IH. intros k Hk.
    cbn [pal_rtc_nanotime_info tsc_reads set_trace set_tsc_reads] in *.
    apply Hnever. lia.
Qed.

End Delay.

(** ** The commpage follows the tuple *)

Section Commpage.

Context {P : Platform}.

Lemma commpage_view_app (t1 t2 : list event) :
  forall seen,
    commpage_view (t1 ++ t2) seen = commpage_view t2 (commpage_view t1 seen).
Proof.
  induction t1 as [|e t1 IH]; intros seen.
  - reflexivity.
  - destruct e; cbn [app commpage_view]; apply IH.
Qed.

Lemma commpage_view_other (t : list event) (e : event) :
  is_nanotime_publication e = false ->
  forall seen, commpage_view (t ++ [e]) seen = commpage_view t seen.
Proof.
  intros He seen. rewrite commpage_view_app.
  destruct e; try reflexivity. discriminate He.
Qed.

(** A machine whose latest call published its tuple is in sync. *)
Lemma published_last_in_sync (m : machine) (t : list event) :
  trace m = t ++ [commpage_set_nanotime
                    (tsc_base (pal_rtc_nanotime_info m))
                    (ns_base (pal_rtc_nanotime_info m))
                    (scale (pal_rtc_nanotime_info m))
                    (shift (pal_rtc_nanotime_info m))] ->
  commpage_in_sync m.
Proof.
  intros Ht. unfold commpage_in_sync. rewrite Ht, commpage_view_app.
  cbn [commpage_view]. destruct (pal_rtc_nanotime_info m); reflexivity.
Qed.

Lemma keeps_ret {A} (a : A) : keeps_time_base (ret a).
Proof. intros m a' m' H. inversion H. split; reflexivity. Qed.

Lemma keeps_gets {A} (f : machine -> A) : keeps_time_base (gets f).
Proof. intros m a' m' H. inversion H. split; reflexivity. Qed.

Lemma keeps_assert (b : bool) (why : assertion) :
  keeps_time_base (assert b why).
Proof.
  intros m a' m' H. unfold assert in H. destruct b; inversion H.
  split; reflexivity.
Qed.

Lemma keeps_modify (f : machine -> machine) :
  (forall m, pal_rtc_nanotime_info (f m) = pal_rtc_nanotime_info m) ->
  (forall m, trace (f m) = trace m) ->
  keeps_time_base (modify f).
Proof.
  intros Htuple Htrace m a' m' H. inversion H.
  split; [apply Htuple|]. intros seen. rewrite Htrace. reflexivity.
Qed.

Lemma keeps_call (e : event) :
  is_nanotime_publication e = false -> keeps_time_base (call e).
Proof.
  intros He m a' m' H. inversion H. split; [reflexivity|].
  intros seen. cbn [trace set_trace]. apply commpage_view_other. exact He.
Qed.

Lemma keeps_rdtsc64 : keeps_time_base rdtsc64.
Proof. intros m a' m' H. inversion H. split; reflexivity. Qed.

Lemma keeps_bind {A B} (c : M A) (k : A -> M B) :
  keeps_time_base c ->
  (forall a, keeps_time_base (k a)) ->
  keeps_time_base (bind c k).
Proof.
  intros Hc Hk m b m' H. unfold bind in H.
  destruct (c m) as [a m1| |] eqn:E; try discriminate.
  destruct (Hc m a m1 E) as [Ht1 Hv1].
  destruct (Hk a m1 b m' H) as [Ht2 Hv2].
  split; [congruence|]. intros seen. rewrite Hv2. apply Hv1.
Qed.

Lemma keeps_when (b : bool) (c : M unit) :
  keeps_time_base c -> keeps_time_base (when b c).
Proof. intros Hc. destruct b; [exact Hc | apply keeps_ret]. Qed.

Create HintDb timebase.

#[local] Hint Resolve keeps_ret keeps_gets keeps_assert keeps_rdtsc64
  keeps_when : timebase.

(** Walk a routine's body down to its primitive steps. *)
Ltac keeps :=
  repeat first
    [ solve [auto with timebase]
    | apply keeps_bind; [|intros ?]
    | apply keeps_when
    | apply keeps_call; reflexivity
    | apply keeps_modify; intros ?; reflexivity
    | match goal with
      | |- keeps_time_base (if ?b then _ else _) => destruct b
      | |- keeps_time_base (let '(_, _) := ?p in _) => destruct p
      | |- keeps_time_base (match ?t with saved_state64 _ _ => _
                                        | saved_state32 _ _ => _ end) =>
          destruct t
      end ].

Lemma keeps_rtc_nanotime_read : keeps_time_base rtc_nanotime_read.
Proof. unfold rtc_nanotime_read, _rtc_nanotime_read. keeps. Qed.

Lemma keeps_rtc_timer_start : keeps_time_base rtc_timer_start.
Proof. unfold rtc_timer_start. keeps. Qed.

Lemma keeps_rtc_export_speed (cyc_per_sec : Z) :
  keeps_time_base (rtc_export_speed cyc_per_sec).
Proof. unfold rtc_export_speed. keeps. Qed.

#[local] Hint Resolve keeps_rtc_nanotime_read keeps_rtc_timer_start
  keeps_rtc_export_speed : timebase.

Lemma keeps_rtclock_init : keeps_time_base rtclock_init.
Proof. unfold rtclock_init. keeps. Qed.

Lemma keeps_rtclock_intr (tregs : x86_saved_state_t) :
  keeps_time_base (rtclock_intr tregs).
Proof. unfold rtclock_intr. keeps. Qed.

Lemma keeps_setPop (time : Z) : keeps_time_base (setPop time).
Proof. unfold setPop. keeps. Qed.

Lemma keeps_clock_get_system_microtime :
  keeps_time_base clock_get_system_microtime.
Proof. unfold clock_get_system_microtime. keeps. Qed.

Lemma keeps_clock_get_system_nanotime :
  keeps_time_base clock_get_system_nanotime.
Proof. unfold clock_get_system_nanotime. keeps. Qed.

Lemma keeps_machine_delay_until (fuel : nat) (interval deadline : Z) :
  keeps_time_base (machine_delay_until fuel interval deadline).
Proof.
  induction fuel as [|fuel IH]; cbn [machine_delay_until].
  - intros m a m' H. discriminate.
  - unfold mach_absolute_time. keeps.
Qed.

(** X18. The readers, the timer routines, the interrupt entry and the
    start-up routine never write the calibration tuple and never publish a
    nanotime tuple to the commpage: whenever one of them returns, the
    tuple and what the commpage shows of it are what they were. *)
Theorem only_the_rebasers_touch_the_time_base :
  keeps_time_base rtc_timer_start /\
  keeps_time_base rtc_nanotime_read /\
  keeps_time_base rtc_decrementer_configure /\
  (forall cyc_per_sec, keeps_time_base (rtc_export_speed cyc_per_sec)) /\
  keeps_time_base rtclock_init /\
  keeps_time_base clock_get_system_microtime /\
  keeps_time_base clock_get_system_nanotime /\
  (forall abstime sec frac sc tick_per_sec,
      keeps_time_base
        (clock_gettimeofday_set_commpage abstime sec frac sc tick_per_sec)) /\
  (forall tregs, keeps_time_base (rtclock_intr tregs)) /\
  (forall time, keeps_time_base (setPop time)) /\
  keeps_time_base mach_absolute_time /\
  keeps_time_base mach_approximate_time /\
  (forall fuel interval deadline,
      keeps_time_base (machine_delay_until fuel interval deadline)).
Proof.
  repeat match goal with |- _ /\ _ => split end;
    repeat match goal with |- forall _ : Z, _ => intro
                      | |- forall _ : nat, _ => intro
                      | |- forall _ : x86_saved_state_t, _ => intro end;
    try (unfold rtc_decrementer_configure, clock_gettimeofday_set_commpage,
           mach_absolute_time, mach_approximate_time);
    try (apply keeps_call; reflexivity);
    auto using keeps_rtclock_init, keeps_rtclock_intr, keeps_setPop,
      keeps_clock_get_system_microtime, keeps_clock_get_system_nanotime,
      keeps_machine_delay_until with timebase.
Qed.

End Commpage.

Section Published.

Context {P : Platform}.

Lemma done_unique {A} (o : outcome A) (a1 a2 : A) (m1 m2 : machine) :
  o = Done a1 m1 -> o = Done a2 m2 -> m1 = m2.
Proof. intros H1 H2. rewrite H1 in H2. injection H2 as _ E. exact E. Qed.

Lemma rtc_nanotime_init_syncs (base : Z) (m : machine) :
  exists m', rtc_nanotime_init base m = Done tt m' /\ commpage_in_sync m'.
Proof.
  eexists. split; [reflexivity|].
  apply (published_last_in_sync _ (trace m)). reflexivity.
Qed.

Lemma rtc_sleep_wakeup_syncs (base : Z) (m : machine) :
  exists m', rtc_sleep_wakeup base m = Done tt m' /\ commpage_in_sync m'.
Proof.
  eexists. split; [reflexivity|].
  apply (published_last_in_sync _ (trace m ++ [rtc_config])). reflexivity.
Qed.

Lemma rtc_set_timescale_syncs (fuel : nat) (cycles eff sh : Z) (m : machine) :
  slow_tsc_loop fuel cycles 0 = Some (eff, sh) ->
  exists m', rtc_set_timescale fuel cycles m = Done tt m' /\ commpage_in_sync m'.
Proof.
  intros Hloop. unfold rtc_set_timescale. rewrite Hloop.
  unfold bind, modify, gets, when. cbn [tsc_rebase_abs_time set_nanotime_info].
  destruct (tsc_rebase_abs_time m =? 0);
    eexists; (split; [reflexivity|]);
    apply (published_last_in_sync _ (trace m)); reflexivity.
Qed.

Lemma rtc_clock_adjust_cases (delta : Z) (m : machine) :
  rtc_clock_adjust delta m =
    if interrupts_enabled m then Panic assert_interrupts_disabled
    else if delta <? 100 then
      let t := _rtc_nanotime_adjust delta (pal_rtc_nanotime_info m) in
      Done tt (set_trace
                 (trace m ++ [commpage_set_nanotime (tsc_base t) (ns_base t)
                                (scale t) (shift t)])
                 (set_nanotime_info t m))
    else Panic assert_tsc_base_delta_small.
Proof.
  unfold rtc_clock_adjust, bind, gets, assert.
  destruct (interrupts_enabled m); cbn [negb]; [reflexivity|].
  destruct (delta <? 100); reflexivity.
Qed.

(** X19. Every routine that writes the calibration tuple publishes it
    before it returns: after [rtc_nanotime_init], [rtc_sleep_wakeup],
    [rtc_set_timescale], [rtclock_early_init], [rtc_clock_adjust] and
    [rtc_nanotime_init_commpage] the commpage shows the tuple the kernel
    holds, and [rtc_clock_napped] keeps the two in agreement whether it
    adopts the candidate or not. *)
Theorem every_rebase_is_published :
  (forall base m m',
      rtc_nanotime_init base m = Done tt m' -> commpage_in_sync m') /\
  (forall base m m',
      rtc_sleep_wakeup base m = Done tt m' -> commpage_in_sync m') /\
  (forall fuel cycles m m',
      rtc_set_timescale fuel cycles m = Done tt m' -> commpage_in_sync m') /\
  (forall fuel m m',
      rtclock_early_init fuel m = Done tt m' -> commpage_in_sync m') /\
  (forall delta m m',
      rtc_clock_adjust delta m = Done tt m' -> commpage_in_sync m') /\
  (forall m m',
      rtc_nanotime_init_commpage m = Done tt m' -> commpage_in_sync m') /\
  (forall base new_tsc_base m m',
      rtc_clock_napped base new_tsc_base m = Done tt m' ->
      commpage_in_sync m -> commpage_in_sync m').
Proof.
  assert (Hcal : forall fuel cycles m m',
    rtc_set_timescale fuel cycles m = Done tt m' -> commpage_in_sync m').
  { intros fuel cycles m m' Hrun.
    destruct (slow_tsc_loop fuel cycles 0) as [[eff sh]|] eqn:Hloop.
    - destruct (rtc_set_timescale_syncs fuel cycles eff sh m Hloop)
        as (m2 & Hrun2 & Hsync).
      rewrite (done_unique _ _ _ _ _ Hrun Hrun2). exact Hsync.
    - unfold rtc_set_timescale in Hrun. rewrite Hloop in Hrun. discriminate. }
  split; [|split; [|split; [|split; [|split; [|split]]]]].
  - intros base m m' Hrun.
    destruct (rtc_nanotime_init_syncs base m) as (m2 & Hrun2 & Hsync).
    rewrite (done_unique _ _ _ _ _ Hrun Hrun2). exact Hsync.
  - intros base m m' Hrun.
    destruct (rtc_sleep_wakeup_syncs base m) as (m2 & Hrun2 & Hsync).
    rewrite (done_unique _ _ _ _ _ Hrun Hrun2). exact Hsync.
  - exact Hcal.
  - intros fuel m m' Hrun. unfold rtclock_early_init, bind, gets, assert in Hrun.
    destruct (negb (tscFreq m =? 0)); [|discriminate].
    exact (Hcal _ _ _ _ Hrun).
  - intros delta m m' Hrun. rewrite rtc_clock_adjust_cases in Hrun.
    destruct (interrupts_enabled m); [discriminate|].
    destruct (delta <? 100); [|discriminate].
    cbv zeta in Hrun. injection Hrun as <-.
    apply (published_last_in_sync _ (trace m)). reflexivity.
  - intros m m' Hrun.
    assert (Hrun2 : rtc_nanotime_init_commpage m =
                    Done tt (set_trace
                      (trace m ++ [commpage_set_nanotime
                         (tsc_base (pal_rtc_nanotime_info m))
                         (ns_base (pal_rtc_nanotime_info m))
                         (scale (pal_rtc_nanotime_info m))
                         (shift (pal_rtc_nanotime_info m))]) m))
      by reflexivity.
    rewrite (done_unique _ _ _ _ _ Hrun Hrun2).
    apply (published_last_in_sync _ (trace m)). reflexivity.
  - intros base new_tsc_base m m' Hrun Hsync.
    destruct (interrupts_enabled m) eqn:Hints.
    + unfold rtc_clock_napped, bind, gets, assert in Hrun.
      rewrite Hints in Hrun. discriminate.
    + rewrite (rtc_clock_napped_cases base new_tsc_base m Hints) in Hrun.
      cbv zeta in Hrun.
      destruct (nanotime_at _ _ <? _); injection Hrun as <-.
      * apply (published_last_in_sync _ (trace m)). reflexivity.
      * exact Hsync.
Qed.

End Published.

(** ** The further properties on the concrete platform *)

Lemma sample_converter_zero (t : pal_rtc_nanotime_t) :
  @_rtc_tsc_to_nanoseconds sample_platform 0 t = 0.
Proof. cbn. rewrite Z.shiftl_0_l. reflexivity. Qed.

Lemma sample_threshold_range :
  0 <= @SLOW_TSC_THRESHOLD sample_platform < 2 ^ 63.
Proof. vm_compute. split; [discriminate | reflexivity]. Qed.

Lemma absolutetime_to_microtime_decomposes_witness :
  0 < @NSEC_PER_USEC sample_platform /\
  let '(remain, secs, microsecs) :=
    @_absolutetime_to_microtime sample_platform 2500001234 in
  2500001234 = secs * NSEC_PER_SEC + remain /\
  0 <= remain < NSEC_PER_SEC /\
  microsecs * @NSEC_PER_USEC sample_platform <= remain
    < (microsecs + 1) * @NSEC_PER_USEC sample_platform /\
  @absolutetime_to_microtime sample_platform 2500001234 = (secs, microsecs).
Proof.
  assert (H : 0 < @NSEC_PER_USEC sample_platform) by reflexivity.
  split; [exact H|].
  exact (@absolutetime_to_microtime_decomposes sample_platform 2500001234 H).
Defined.

Lemma nanotime_split_then_join_witness :
  0 <= 2500000123 < 2 ^ 64 /\
  let '(secs, nanosecs) := _absolutetime_to_nanotime 2500000123 in
  nanotime_to_absolutetime secs nanosecs = 2500000123 /\
  0 <= nanosecs < NSEC_PER_SEC /\
  0 <= secs.
Proof.
  assert (H : 0 <= 2500000123 < 2 ^ 64) by lia.
  split; [exact H|]. exact (nanotime_split_then_join 2500000123 H).
Defined.

Lemma nanotime_join_then_split_witness :
  0 <= 2 /\
  0 <= 500000123 < NSEC_PER_SEC /\
  2 * NSEC_PER_SEC + 500000123 < 2 ^ 64 /\
  _absolutetime_to_nanotime (nanotime_to_absolutetime 2 500000123)
    = (2, 500000123).
Proof.
  assert (H1 : 0 <= 2) by lia.
  assert (H2 : 0 <= 500000123 < NSEC_PER_SEC) by (unfold NSEC_PER_SEC; lia).
  assert (H3 : 2 * NSEC_PER_SEC + 500000123 < 2 ^ 64)
    by (unfold NSEC_PER_SEC; lia).
  split; [exact H1|]. split; [exact H2|]. split; [exact H3|].
  exact (nanotime_join_then_split 2 500000123 H1 H2 H3).
Defined.

Lemma clock_interval_is_exact_product_witness :
  0 <= 4294967295 < 2 ^ 32 /\
  0 <= 4294967295 < 2 ^ 32 /\
  clock_interval_to_absolutetime_interval 4294967295 4294967295
    = 4294967295 * 4294967295.
Proof.
  assert (H : 0 <= 4294967295 < 2 ^ 32) by lia.
  split; [exact H|]. split; [exact H|].
  exact (clock_interval_is_exact_product 4294967295 4294967295 H H).
Defined.

Lemma rtc_export_speed_rounds_witness :
  0 <= 2394230000 /\
  2394230000 + 5000000 < 2 ^ 64 /\
  exists cycles m',
    rtc_export_speed 2394230000 boot_machine
      = Done cycles m' /\
    cycles mod 10000000 = 0 /\
    2394230000 - 5000000 < cycles <= 2394230000 + 5000000 /\
    cpu_frequency_hz (gPEClockFrequencyInfo m') = cycles /\
    cpu_clock_rate_hz (gPEClockFrequencyInfo m') = Z.min cycles 4294967295 /\
    cpu_frequency_min_hz (gPEClockFrequencyInfo m')
      = cpu_frequency_min_hz (gPEClockFrequencyInfo boot_machine) /\
    cpu_frequency_max_hz (gPEClockFrequencyInfo m')
      = cpu_frequency_max_hz (gPEClockFrequencyInfo boot_machine) /\
    pal_rtc_nanotime_info m' = pal_rtc_nanotime_info boot_machine.
Proof.
  assert (H1 : 0 <= 2394230000) by lia.
  assert (H2 : 2394230000 + 5000000 < 2 ^ 64) by lia.
  split; [exact H1|]. split; [exact H2|].
  exact (rtc_export_speed_rounds 2394230000 boot_machine H1 H2).
Defined.

Lemma rtc_export_speed_wraps_at_top_witness :
  2 ^ 64 - 5000000 <= 18446744073709551615 < 2 ^ 64 /\
  exists m',
    rtc_export_speed 18446744073709551615 boot_machine
      = Done 0 m' /\
    cpu_frequency_hz (gPEClockFrequencyInfo m') = 0 /\
    cpu_clock_rate_hz (gPEClockFrequencyInfo m') = 0.
Proof.
  assert (H : 2 ^ 64 - 5000000 <= 18446744073709551615 < 2 ^ 64) by lia.
  split; [exact H|].
  exact (rtc_export_speed_wraps_at_top 18446744073709551615 boot_machine H).
Defined.


Lemma rtc_clock_napped_keeps_the_later_time_witness :
  @converter_reads_scale_shift sample_platform /\
  interrupts_enabled running_machine = false /\
  exists m',
    @rtc_clock_napped sample_platform 400 1000 running_machine = Done tt m' /\
    @nanotime_at sample_platform 1000 (pal_rtc_nanotime_info m') = 500.
Proof.
  split; [exact sample_converter_reads_scale_shift|].
  split; [reflexivity|].
  destruct (@rtc_clock_napped_keeps_the_later_time sample_platform 400 1000
              running_machine sample_converter_reads_scale_shift eq_refl)
    as (m' & Hrun & Hmax & _).
  exists m'. split; [exact Hrun|]. exact Hmax.
Defined.

Lemma interrupts_enabled_stops_the_writers_witness :
  interrupts_enabled interruptible_machine = true /\
  @rtc_clock_napped sample_platform 501 1000 interruptible_machine
    = Panic assert_interrupts_disabled /\
  @rtc_clock_adjust sample_platform 1 interruptible_machine
    = Panic assert_interrupts_disabled.
Proof.
  destruct (@interrupts_enabled_stops_the_writers sample_platform
              interruptible_machine eq_refl) as (Hnap & Hadj & _).
  split; [reflexivity|]. split; [apply Hnap | apply Hadj].
Defined.

Lemma rtc_sleep_wakeup_restarts_at_base_witness :
  (forall t, @_rtc_tsc_to_nanoseconds sample_platform 0 t = 0) /\
  0 <= 7 < 2 ^ 64 /\
  exists m',
    @rtc_sleep_wakeup sample_platform 7 running_machine = Done tt m' /\
    tsc_base (pal_rtc_nanotime_info m') = 1000 /\
    @nanotime_at sample_platform (tsc_base (pal_rtc_nanotime_info m'))
      (pal_rtc_nanotime_info m') = 7.
Proof.
  assert (H : 0 <= 7 < 2 ^ 64) by lia.
  split; [exact sample_converter_zero|]. split; [exact H|].
  exact (@rtc_sleep_wakeup_restarts_at_base sample_platform 7 running_machine
           sample_converter_zero H).
Defined.

Lemma setPop_clear_request_witness :
  (0 = 0 \/ 0 = @EndOfAllTime sample_platform) /\
  @setPop sample_platform 0 running_machine =
    Done 3 (set_rtcPop 3
              (set_rtcDeadline 18446744073709551615
                 (set_trace [rtc_set_request 0 0] running_machine))).
Proof.
  assert (H : 0 = 0 \/ 0 = @EndOfAllTime sample_platform)
    by (left; reflexivity).
  split; [exact H|].
  exact (@setPop_clear_request sample_platform 0 running_machine H).
Defined.

Lemma rtclock_intr_forwards_witness :
  0 < preemption_level running_machine /\
  interrupts_enabled running_machine = false /\
  rtclock_intr (saved_state64 43 4096) running_machine =
    Done tt (set_trace [timer_intr true 4096] running_machine).
Proof.
  assert (H : 0 < preemption_level running_machine) by reflexivity.
  split; [exact H|]. split; [reflexivity|].
  exact (proj1 (rtclock_intr_forwards (saved_state64 43 4096)
                  running_machine) H eq_refl).
Defined.

Lemma rtc_set_timescale_least_shift_witness :
  0 <= @SLOW_TSC_THRESHOLD sample_platform < 2 ^ 63 /\
  1 <= 500 < 2 ^ 64 /\
  (64 <= 64)%nat /\
  exists m' sh,
    @rtc_set_timescale sample_platform 64 500 boot_machine = Done tt m' /\
    shift (pal_rtc_nanotime_info m') = sh /\
    0 <= sh <= 63 /\
    @SLOW_TSC_THRESHOLD sample_platform < 500 * 2 ^ sh < 2 ^ 64 /\
    (forall j, 0 <= j < sh ->
       500 * 2 ^ j <= @SLOW_TSC_THRESHOLD sample_platform) /\
    scale (pal_rtc_nanotime_info m') = u32 (scale_quotient (500 * 2 ^ sh)).
Proof.
  assert (Hc : 1 <= 500 < 2 ^ 64) by lia.
  split; [exact sample_threshold_range|]. split; [exact Hc|].
  split; [apply le_n|].
  exact (@rtc_set_timescale_least_shift sample_platform 64 500 boot_machine
           sample_threshold_range Hc (le_n 64)).
Defined.

Lemma calibrated_machine_run :
  @rtc_set_timescale sample_platform 64 2000000000 boot_machine
    = Done tt calibrated_machine.
Proof. vm_compute. reflexivity. Qed.

Lemma rtc_set_timescale_rebases_only_from_zero_witness :
  @rtc_set_timescale sample_platform 64 2000000000 boot_machine
    = Done tt calibrated_machine /\
  tsc_rebase_abs_time boot_machine = 0 /\
  tsc_rebase_abs_time calibrated_machine = 500 /\
  tsc_reads calibrated_machine = 2%nat.
Proof.
  destruct (@rtc_set_timescale_rebases_only_from_zero sample_platform 64
              2000000000
              boot_machine calibrated_machine calibrated_machine_run)
    as [_ Hzero].
  destruct (Hzero eq_refl) as [Hrebase Hreads].
  split; [exact calibrated_machine_run|]. split; [reflexivity|].
  split; [|exact Hreads].
  rewrite Hrebase. vm_compute. reflexivity.
Defined.

Lemma rtclock_early_init_starts_time_at_zero_witness :
  0 <= @SLOW_TSC_THRESHOLD sample_platform < 2 ^ 63 /\
  1 <= tscFreq boot_machine < 2 ^ 64 /\
  (64 <= 64)%nat /\
  (forall t, @_rtc_tsc_to_nanoseconds sample_platform 0 t = 0) /\
  exists m',
    @rtclock_early_init sample_platform 64 boot_machine = Done tt m' /\
    ns_base (pal_rtc_nanotime_info m') = 0 /\
    @nanotime_at sample_platform (tsc_base (pal_rtc_nanotime_info m'))
      (pal_rtc_nanotime_info m') = 0.
Proof.
  assert (Hf : 1 <= tscFreq boot_machine < 2 ^ 64)
    by (split; [discriminate | reflexivity]).
  split; [exact sample_threshold_range|]. split; [exact Hf|].
  split; [apply le_n|]. split; [exact sample_converter_zero|].
  exact (@rtclock_early_init_starts_time_at_zero sample_platform 64
           boot_machine sample_threshold_range Hf (le_n 64)
           sample_converter_zero).
Defined.

Lemma sample_readings_before_512 (i : nat) :
  (i < 3)%nat ->
  @reading sample_platform (pal_rtc_nanotime_info running_machine)
    (i + tsc_reads running_machine) < 512.
Proof.
  intros Hi. destruct i as [|[|[|i]]]; [reflexivity | reflexivity | reflexivity | lia].
Qed.

Lemma machine_delay_until_returns_witness :
  (3 < 10)%nat /\
  512 <= @reading sample_platform (pal_rtc_nanotime_info running_machine)
           (3 + tsc_reads running_machine) /\
  @machine_delay_until sample_platform 10 0 512 running_machine =
    Done tt (set_trace [cpu_pause; cpu_pause; cpu_pause]
               (set_tsc_reads 4 running_machine)).
Proof.
  assert (Hfuel : (3 < 10)%nat) by lia.
  assert (Hreach : 512 <= @reading sample_platform
                     (pal_rtc_nanotime_info running_machine)
                     (3 + tsc_reads running_machine))
    by (vm_compute; discriminate).
  split; [exact Hfuel|]. split; [exact Hreach|].
  exact (@machine_delay_until_returns sample_platform 3 10 0 512
           running_machine Hfuel sample_readings_before_512 Hreach).
Defined.

Lemma stalled_readings_before_501 (k : nat) :
  (tsc_reads running_machine <= k)%nat ->
  @reading stalled_platform (pal_rtc_nanotime_info running_machine) k < 501.
Proof. intros _. reflexivity. Qed.

Lemma machine_delay_until_spins_witness :
  (forall k, (tsc_reads running_machine <= k)%nat ->
     @reading stalled_platform (pal_rtc_nanotime_info running_machine) k
       < 501) /\
  @machine_delay_until stalled_platform 1000 0 501 running_machine = Spin.
Proof.
  split; [exact stalled_readings_before_501|].
  exact (@machine_delay_until_spins stalled_platform 1000 0 501
           running_machine stalled_readings_before_501).
Defined.
